(** * Trainer: epoch loop, checkpoints and metric plots

    A shallow embedding of [src/doc_ml_env/trainer.py].  The class [Trainer]
    drives external collaborators (model, CRF head, optimizer, gradient
    scaler, scheduler, numpy, glob, pyplot).  Their internals are opaque: every
    call on them is recorded in a trace and may change a hidden state.  The
    control flow of [fit], [train_model], [dev_model] and [plot_loss_acc],
    the exceptions Python raises on the way, the files written by
    [torch.save] and the float arithmetic on the losses are modelled as the
    source has them. *)

From Stdlib Require Import ZArith List Floats Ascii String DecimalString Lia.
From Stdlib Require Import DecimalPos DecimalZ Sorting.Sorted Bool.
From stdpp Require Import base tactics option list list_numbers gmap strings.

Local Open Scope string_scope.
Local Open Scope list_scope.
Local Open Scope Z_scope.

(** ** Python values *)

(** The built-in exceptions that the modelled code can raise. *)
Inductive PyExn :=
| NameError (name : string)
| FileNotFoundError (path : string)
| UnpicklingError
| KeyError (key : string)
| IndexError
| ZeroDivisionError
| OverflowError
| ValueError.

(** [f'{n}'] for an integer. *)
Definition str (n : Z) : string := NilZero.string_of_int (Z.to_int n).

(** Conversion of a Python [int] to a [float] (binary64, round to nearest
    even), as done implicitly by [float / int] and [float * int]. *)
Definition float_of_Z (z : Z) : float :=
  SF2Prim (binary_normalize prec emax z 0 false).

(** [range(a, b)]. *)
Definition range (a b : Z) : list Z := seqZ a (b - a).

(** A batch of the data loaders: a mapping with three fields. *)
Record Batch := {
  input_ids : list Z;
  attention_mask : list Z;
  labels : list Z
}.

(** One point of the merged metric series of [plot_loss_acc]:
    [(epoch, train_loss, dev_loss, dev_acc)]. *)
Definition Row : Type := Z * float * float * float.

(** [zip(all_epochs, all_train_losses, all_dev_losses, all_dev_accuracies)]:
    stops at the shortest list. *)
Fixpoint zip4 (es : list Z) (ts ds accs : list float) : list Row :=
  match es, ts, ds, accs with
  | e :: es', t :: ts', d :: ds', a :: accs' =>
      (e, t, d, a) :: zip4 es' ts' ds' accs'
  | _, _, _, _ => []
  end.

Definition row_epoch (r : Row) : Z := fst (fst (fst r)).

(** [sorted(..., key=lambda x: x[0])]: stable, ascending in the epoch. *)
Fixpoint insert_row (x : Row) (l : list Row) : list Row :=
  match l with
  | [] => [x]
  | y :: l' =>
      if (row_epoch x <=? row_epoch y)%Z then x :: l else y :: insert_row x l'
  end.

Definition sorted (rows : list Row) : list Row := foldr insert_row [] rows.

(** [os.path.join(a, b)] for a relative [b] on a POSIX system. *)
Fixpoint ends_with_slash (a : string) : bool :=
  match a with
  | EmptyString => false
  | String c EmptyString => Ascii.eqb c "/"%char
  | String _ rest => ends_with_slash rest
  end.

Definition os_path_join (a b : string) : string :=
  if String.eqb a "" then b
  else if ends_with_slash a then a +:+ b
  else a +:+ "/" +:+ b.

(** ** The module's global namespace *)

(** Names bound at module level by the source file: its imports and the
    class.  A method body resolves a free name here, then among the
    built-ins; an attribute of the class is not in scope. *)
Definition module_globals : list string :=
  ["torch"; "nn"; "optim"; "autocast"; "GradScaler"; "accuracy_score";
   "tqdm"; "np"; "glob"; "Trainer"].

(** [extra] lists further names that a host program has bound in the module's
    namespace, each to the object of that name which the class or the
    library of that name defines.  The file as it is runs with [extra = []]. *)
Definition resolves (extra : list string) (name : string) : bool :=
  existsb (String.eqb name) (module_globals ++ extra).

(** The names the methods use without defining or importing them; none is
    a built-in. *)
Definition repaired : list string :=
  ["self"; "train_model"; "dev_model"; "scheduler"; "os"; "plt"].

(** The result of running a piece of code. *)
Inductive Outcome (A : Type) :=
| Return (a : A)
| Raise (e : PyExn).
Arguments Return {A} a.
Arguments Raise {A} e.

(** ** Opaque collaborators *)

(** [Blob]: what [state_dict()] returns.  [Hidden]: the hidden state of all
    collaborator objects (parameters, gradients, optimizer moments, scaler
    factor, scheduler counters, model mode). *)
Class Opaque := {
  Blob : Type;
  Hidden : Type
}.

Section Data.

Context `{Opaque}.

(** A persisted checkpoint: the dict that [torch.save] pickles.  A key that
    is absent from a stored dict is [None]. *)
Record Checkpoint := {
  ck_model_state_dict : option Blob;
  ck_optimizer_state_dict : option Blob;
  ck_epoch : option (list Z);
  ck_train_loss : option (list float);
  ck_dev_loss : option (list float);
  ck_dev_acc : option (list float)
}.

(** What a path holds: a pickled dict, or bytes that do not unpickle. *)
Inductive File :=
| Pickle (ck : Checkpoint)
| Garbled.

(** What [print] writes. *)
Inductive LogLine :=
| LogResume (pretrain start_epoch : Z) (pre_loss : float)
| LogFresh
| LogEpoch (n : Z) (train_loss dev_loss dev_acc : float)
| LogPath (file_path : string)
| LogReadError (file_path : string) (e : PyExn).

(** The observable calls, in the order of the source. *)
Inductive Call :=
| ModelTrain                          (* self.model.train() *)
| ModelEval                           (* self.model.eval() *)
| OptimizerZeroGrad                   (* self.optimizer.zero_grad() *)
| ModelForward (b : Batch)            (* self.model(input_ids, ...) *)
| CrfLogLikelihood (b : Batch)        (* self.model.crf(logits, labels, ...) *)
| ScalerScale                         (* self.scaler.scale(loss) *)
| Backward                            (* (...).backward() *)
| ScalerStep                          (* self.scaler.step(self.optimizer) *)
| ScalerUpdate                        (* self.scaler.update() *)
| ModelDecode (b : Batch)             (* self.model.decode(logits, mask) *)
| AccuracyScore (b : Batch)           (* accuracy_score(labels, preds) *)
| SchedulerStep (metric : float)      (* scheduler.step(dev_loss) *)
| ModelLoadStateDict (s : Blob)
| OptimizerLoadStateDict (s : Blob)
| ModelStateDict
| OptimizerStateDict
| TorchSave (path : string)
| PlotChart (series : list Row)       (* lines 232-264: the pyplot calls *)
| Print (line : LogLine).

End Data.

(** The collaborators' behaviour.  [effect c h] is the hidden state after the
    call [c]; the other fields are the values the code reads back. *)
Class Collaborators `{Opaque} := {
  effect : Call -> Hidden -> Hidden;
  crf_log_likelihood : Hidden -> Batch -> float;
  accuracy_score : Hidden -> Batch -> float;
  model_state_dict : Hidden -> Blob;
  optimizer_state_dict : Hidden -> Blob;
  np_mean : list float -> float;
  glob : string -> gmap string File -> list string
}.

Section Controller.

Context `{Collaborators}.

(** ** The trainer and the world it runs in *)

(** The data attributes set by [__init__]; the collaborator attributes
    (model, optimizer, scheduler, scaler, device) are never rebound and
    their state lives in [Hidden]. *)
Record Trainer := {
  batch_size : Z;
  model_path : string;
  train_dataloader : list Batch;
  dev_dataloader : list Batch
}.

Record World := {
  self_ : Trainer;
  heap : Hidden;
  disk : gmap string File;
  trace : list Call
}.

(** ** A state and exception monad

    An exception keeps the state reached when it was raised. *)
Definition M (A : Type) : Type := World -> Outcome A * World.

Definition ret {A} (a : A) : M A := fun w => (Return a, w).

Definition raise {A} (e : PyExn) : M A := fun w => (Raise e, w).

Definition bind {A B} (m : M A) (k : A -> M B) : M B :=
  fun w =>
    match m w with
    | (Return a, w') => k a w'
    | (Raise e, w') => (Raise e, w')
    end.

(** [try: m  except Exception as e: handler e]. *)
Definition try_except {A} (m : M A) (handler : PyExn -> M A) : M A :=
  fun w =>
    match m w with
    | (Return a, w') => (Return a, w')
    | (Raise e, w') => handler e w'
    end.

Notation "'let*' x ':=' c 'in' k" := (bind c (fun x => k))
  (at level 10, x name, c at level 100, k at level 200).
Notation "'let*' ( x , y ) ':=' c 'in' k" := (bind c (fun '(x, y) => k))
  (at level 10, x name, y name, c at level 100, k at level 200).
Notation "c ';;' k" := (bind c (fun _ => k))
  (at level 100, k at level 200, right associativity).

(** [for x in xs: s = body x s]. *)
Fixpoint for_each {A S} (xs : list A) (body : A -> S -> M S) (s : S) : M S :=
  match xs with
  | [] => ret s
  | x :: xs' => let* s' := body x s in for_each xs' body s'
  end.

(** A call on a collaborator: logged, and free to change the hidden state. *)
Definition record_call (c : Call) (w : World) : World :=
  {| self_ := self_ w; heap := effect c (heap w); disk := disk w;
     trace := trace w ++ [c] |}.

Definition call (c : Call) : M unit := fun w => (Return tt, record_call c w).

(** A call whose result the code reads. *)
Definition call_value {A} (c : Call) (result : Hidden -> A) : M A :=
  fun w => (Return (result (heap w)), record_call c w).

(** Output that holds no reference to a collaborator: logged only. *)
Definition emit (c : Call) : M unit :=
  fun w =>
    (Return tt,
     {| self_ := self_ w; heap := heap w; disk := disk w;
        trace := trace w ++ [c] |}).

Definition print (line : LogLine) : M unit := emit (Print line).

(** Reading an attribute of [self] inside a method that has it. *)
Definition self_attr {A} (attr : Trainer -> A) : M A :=
  fun w => (Return (attr (self_ w)), w).

(** Evaluating a free name of a method body. *)
Definition global (extra : list string) (name : string) : M unit :=
  if resolves extra name then ret tt else raise (NameError name).

(** [torch.load(path)].  A file either unpickles to the dict that was
    stored or does not unpickle; which stored values a given torch release
    accepts on loading is outside the model. *)
Definition torch_load (path : string) : M Checkpoint :=
  fun w =>
    match disk w !! path with
    | None => (Raise (FileNotFoundError path), w)
    | Some Garbled => (Raise UnpicklingError, w)
    | Some (Pickle ck) => (Return ck, w)
    end.

(** [torch.save(checkpoint, path)]: replaces whatever the path held.  The
    directory of the path is taken to exist; [fit] never creates it. *)
Definition torch_save (ck : Checkpoint) (path : string) : M unit :=
  fun w =>
    (Return tt,
     {| self_ := self_ w; heap := heap w;
        disk := <[path := Pickle ck]> (disk w);
        trace := trace w ++ [TorchSave path] |}).

(** [checkpoint[key]]. *)
Definition getitem {A} (field : option A) (key : string) : M A :=
  match field with
  | Some v => ret v
  | None => raise (KeyError key)
  end.

(** [l[-1]]. *)
Definition last_item {A} (l : list A) : M A :=
  match last l with
  | Some v => ret v
  | None => raise IndexError
  end.

(** Implicit [int] to [float] conversion of an arithmetic operand. *)
Definition to_float (n : Z) : M float :=
  let f := float_of_Z n in
  if is_infinity f then raise OverflowError else ret f.

(** [x / n] for a float [x] and an int [n]. *)
Definition truediv (x : float) (n : Z) : M float :=
  let* d := to_float n in
  if (n =? 0)%Z then raise ZeroDivisionError else ret (x / d)%float.

(** [x * n] for a float [x] and an int [n]. *)
Definition mul_int (x : float) (n : Z) : M float :=
  let* f := to_float n in
  ret (x * f)%float.

(** ** Generators *)

(** A generator function whose body is [for batch in <source>: <body>; yield].
    Nothing runs when it is called; the source is evaluated at the first
    [next], and each further [next] runs the body for one batch. *)
Record Generator (A : Type) := {
  gen_source : M (list Batch);
  gen_body : Batch -> M A
}.
Arguments gen_source {A} g.
Arguments gen_body {A} g b.

(** [for x in gen(): s = body x s]: producer and consumer alternate. *)
Definition for_in {A S} (gen : Generator A) (body : A -> S -> M S) (s : S)
  : M S :=
  let* batches := gen_source gen in
  for_each batches (fun b s => let* x := gen_body gen b in body x s) s.

(** [list(gen())]. *)
Definition drain {A} (gen : Generator A) : M (list A) :=
  for_in gen (fun x xs => ret (xs ++ [x])) [].

Section Methods.

Variable extra : list string.

(** [train_model], lines 45-68.  It is declared without parameters, so [self]
    in its body is a free name. *)
Definition train_model : Generator float := {|
  gen_source := (global extra "self" ;; self_attr train_dataloader);
  gen_body := fun batch =>
    call OptimizerZeroGrad ;;
    call (ModelForward batch) ;;
    let* log_likelihood :=
      call_value (CrfLogLikelihood batch)
                 (fun h => crf_log_likelihood h batch) in
    let loss := (- log_likelihood)%float in
    call ScalerScale ;;
    call Backward ;;
    call ScalerStep ;;
    call ScalerUpdate ;;
    ret loss
|}.

(** [dev_model], lines 70-106; also without parameters. *)
Definition dev_model : Generator (float * float) := {|
  gen_source := (global extra "self" ;; self_attr dev_dataloader);
  gen_body := fun batch =>
    call (ModelForward batch) ;;
    call (ModelForward batch) ;;
    let* log_likelihood :=
      call_value (CrfLogLikelihood batch)
                 (fun h => crf_log_likelihood h batch) in
    let loss := (- log_likelihood)%float in
    call (ModelDecode batch) ;;
    let* acc :=
      call_value (AccuracyScore batch) (fun h => accuracy_score h batch) in
    ret (loss, acc)
|}.

(** The four lists that [fit] fills, lines 131-134. *)
Record History := {
  epoch_list : list Z;
  train_loss_list : list float;
  dev_loss_list : list float;
  dev_acc_list : list float
}.

Definition checkpoint_path (dir : string) (n : Z) : string :=
  dir +:+ "checkpoint_" +:+ str n +:+ ".pth".

(** Lines 115-128 of [fit]: resume from a checkpoint, or start afresh. *)
Definition resume (pretrain : Z) : M Z :=
  if (pretrain =? 0)%Z then
    print LogFresh ;;
    ret 0
  else
    let* dir := self_attr model_path in
    let* checkpoint := torch_load (checkpoint_path dir pretrain) in
    let* model_state := getitem (ck_model_state_dict checkpoint)
                                "model_state_dict" in
    call (ModelLoadStateDict model_state) ;;
    let* optimizer_state := getitem (ck_optimizer_state_dict checkpoint)
                                    "optimizer_state_dict" in
    call (OptimizerLoadStateDict optimizer_state) ;;
    let* epochs := getitem (ck_epoch checkpoint) "epoch" in
    let* start_epoch := last_item epochs in
    let* train_losses := getitem (ck_train_loss checkpoint) "train_loss" in
    let* pre_loss := last_item train_losses in
    let* dev_accs := getitem (ck_dev_acc checkpoint) "dev_acc" in
    let* pre_acc := last_item dev_accs in
    print (LogResume pretrain start_epoch pre_loss) ;;
    ret start_epoch.

(** Lines 137-143 of [fit]: the training pass of one epoch, which sums the
    loss of every batch. *)
Definition train_phase : M float :=
  call ModelTrain ;;
  global extra "train_model" ;;
  for_in train_model (fun loss total => ret (total + loss)%float) 0%float.

(** Lines 146-156 of [fit]: the validation pass of one epoch, and the
    scheduler step on the loss it summed. *)
Definition dev_phase : M (float * list float) :=
  call ModelEval ;;
  let* (dev_loss, acc_list) :=
    (global extra "dev_model" ;;
     for_in dev_model
       (fun '(loss, acc) '(total, accs) =>
          ret ((total + loss)%float, accs ++ [acc]))
       (0%float, [])) in
  global extra "scheduler" ;;
  call (SchedulerStep dev_loss) ;;
  ret (dev_loss, acc_list).

(** [total / len(loader) * self.batch_size], lines 158 and 159. *)
Definition per_sample (total : float) (loader : Trainer -> list Batch)
  : M float :=
  let* n := self_attr (fun t => Z.of_nat (length (loader t))) in
  let* mean := truediv total n in
  let* size := self_attr batch_size in
  mul_int mean size.

(** Lines 158-165 of [fit]: scale, report and record the epoch. *)
Definition record_epoch (start_epoch epoch : Z) (hist : History)
           (train_loss dev_loss : float) (acc_list : list float)
  : M History :=
  let* train_loss := per_sample train_loss train_dataloader in
  let* dev_loss := per_sample dev_loss dev_dataloader in
  let dev_acc := np_mean acc_list in
  print (LogEpoch (start_epoch + epoch + 1) train_loss dev_loss dev_acc) ;;
  ret {| epoch_list := epoch_list hist ++ [start_epoch + epoch + 1];
         train_loss_list := train_loss_list hist ++ [train_loss];
         dev_loss_list := dev_loss_list hist ++ [dev_loss];
         dev_acc_list := dev_acc_list hist ++ [dev_acc] |}.

(** Lines 136-165 of [fit]: the body of [for epoch in range(epoch_num)]. *)
Definition epoch_body (start_epoch : Z) (epoch : Z) (hist : History)
  : M History :=
  let* train_loss := train_phase in
  let* (dev_loss, acc_list) := dev_phase in
  record_epoch start_epoch epoch hist train_loss dev_loss acc_list.

Definition empty_history : History :=
  {| epoch_list := []; train_loss_list := []; dev_loss_list := [];
     dev_acc_list := [] |}.

(** Lines 167-177 of [fit]: build the dict and save it. *)
Definition save_checkpoint (epoch_num pretrain : Z) (hist : History)
  : M unit :=
  let* model_state := call_value ModelStateDict model_state_dict in
  let* optimizer_state := call_value OptimizerStateDict optimizer_state_dict in
  let checkpoint :=
    {| ck_model_state_dict := Some model_state;
       ck_optimizer_state_dict := Some optimizer_state;
       ck_epoch := Some (range (pretrain + 1) (pretrain + epoch_num + 1));
       ck_train_loss := Some (train_loss_list hist);
       ck_dev_loss := Some (dev_loss_list hist);
       ck_dev_acc := Some (dev_acc_list hist) |} in
  let* dir := self_attr model_path in
  torch_save checkpoint (checkpoint_path dir (pretrain + epoch_num)).

(** [fit(self, epoch_num, pretrain=0)], lines 108-177. *)
Definition fit (epoch_num pretrain : Z) : M unit :=
  let* start_epoch := resume pretrain in
  let* hist :=
    for_each (range 0 epoch_num) (epoch_body start_epoch) empty_history in
  save_checkpoint epoch_num pretrain hist.

(** The four merged lists of [plot_loss_acc], lines 197-200. *)
Record Merged := {
  all_epochs : list Z;
  all_train_losses : list float;
  all_dev_losses : list float;
  all_dev_accuracies : list float
}.

Definition empty_merged : Merged :=
  {| all_epochs := []; all_train_losses := []; all_dev_losses := [];
     all_dev_accuracies := [] |}.

(** Lines 204-225: the body of [for file_path in pth_files].  The four
    subscripts come before the four [extend]s, and an [extend] by a list
    cannot fail, so a file that raises leaves the merged lists as they were. *)
Definition scan_file (file_path : string) (acc : Merged) : M Merged :=
  try_except
    (print (LogPath file_path) ;;
     let* checkpoint := torch_load file_path in
     let* epochs := getitem (ck_epoch checkpoint) "epoch" in
     let* train_losses := getitem (ck_train_loss checkpoint) "train_loss" in
     let* dev_losses := getitem (ck_dev_loss checkpoint) "dev_loss" in
     let* dev_accuracies := getitem (ck_dev_acc checkpoint) "dev_acc" in
     ret {| all_epochs := all_epochs acc ++ epochs;
            all_train_losses := all_train_losses acc ++ train_losses;
            all_dev_losses := all_dev_losses acc ++ dev_losses;
            all_dev_accuracies := all_dev_accuracies acc ++ dev_accuracies |})
    (fun e => print (LogReadError file_path e) ;; ret acc).

Definition set_model_path (path : string) : M unit :=
  fun w =>
    (Return tt,
     {| self_ := {| batch_size := batch_size (self_ w);
                    model_path := path;
                    train_dataloader := train_dataloader (self_ w);
                    dev_dataloader := dev_dataloader (self_ w) |};
        heap := heap w; disk := disk w; trace := trace w |}).

(** [glob(file_pattern)]: the matching paths, in the order the system
    lists them. *)
Definition list_files (file_pattern : string) : M (list string) :=
  fun w => (Return (glob file_pattern (disk w)), w).

Definition merged_rows (m : Merged) : list Row :=
  sorted (zip4 (all_epochs m) (all_train_losses m) (all_dev_losses m)
               (all_dev_accuracies m)).

(** Lines 192-264 of [plot_loss_acc]: list the files, merge what can be
    read, sort and draw. *)
Definition scan_and_plot : M unit :=
  global extra "os" ;;
  let* dir := self_attr model_path in
  let file_pattern := os_path_join dir "checkpoint_*.pth" in
  let* pth_files := list_files file_pattern in
  let* merged := for_each pth_files scan_file empty_merged in
  let sorted_data := merged_rows merged in
  (* [a, b, c, d = zip( *sorted_data)] needs at least one row *)
  match sorted_data with [] => raise ValueError | _ :: _ => ret tt end ;;
  global extra "plt" ;;
  emit (PlotChart sorted_data).

(** [plot_loss_acc(self, model_path)], lines 185-264. *)
Definition plot_loss_acc (path : string) : M unit :=
  set_model_path path ;;
  scan_and_plot.

End Methods.

End Controller.

Arguments gen_source {_ A} g.
Arguments gen_body {_ A} g b.

(** ** Reading traces *)

Section Traces.

Context `{Opaque}.

Definition is_scheduler_step (c : Call) : bool :=
  match c with SchedulerStep _ => true | _ => false end.

Definition is_zero_grad (c : Call) : bool :=
  match c with OptimizerZeroGrad => true | _ => false end.

Definition is_save (c : Call) : bool :=
  match c with TorchSave _ => true | _ => false end.

(** Restoring a state dict is the only call [fit] makes before its loop. *)
Definition is_state_load (c : Call) : bool :=
  match c with
  | ModelLoadStateDict _ | OptimizerLoadStateDict _ => true
  | _ => false
  end.

Definition count (p : Call -> bool) (t : list Call) : nat :=
  length (List.filter p t).

(** The calls of one training batch, lines 53-66. *)
Definition train_batch_calls (b : Batch) : list Call :=
  [OptimizerZeroGrad; ModelForward b; CrfLogLikelihood b;
   ScalerScale; Backward; ScalerStep; ScalerUpdate].

(** The calls of one validation batch, lines 80-94. *)
Definition dev_batch_calls (b : Batch) : list Call :=
  [ModelForward b; ModelForward b; CrfLogLikelihood b;
   ModelDecode b; AccuracyScore b].

End Traces.

Section Keys.

Context `{Opaque}.

Definition option_present {A} (o : option A) : bool :=
  match o with Some _ => true | None => false end.

(** [key in checkpoint], for a stored dict. *)
Definition has_key (ck : Checkpoint) (key : string) : bool :=
  if String.eqb key "model_state_dict" then
    option_present (ck_model_state_dict ck)
  else if String.eqb key "optimizer_state_dict" then
    option_present (ck_optimizer_state_dict ck)
  else if String.eqb key "epoch" then option_present (ck_epoch ck)
  else if String.eqb key "train_loss" then option_present (ck_train_loss ck)
  else if String.eqb key "dev_loss" then option_present (ck_dev_loss ck)
  else if String.eqb key "dev_acc" then option_present (ck_dev_acc ck)
  else false.

(** The six keys of the dict that [fit] stores, lines 168-175. *)
Definition stored_keys : list string :=
  ["model_state_dict"; "optimizer_state_dict"; "epoch"; "train_loss";
   "dev_loss"; "dev_acc"].

(** The five keys that the resume of [fit] subscripts, in the order of
    lines 118-122. *)
Definition resume_keys : list string :=
  ["model_state_dict"; "optimizer_state_dict"; "epoch"; "train_loss";
   "dev_acc"].

(** The first of [keys] that a stored dict lacks. *)
Definition first_missing (keys : list string) (ck : Checkpoint)
  : option string :=
  List.find (fun key => negb (has_key ck key)) keys.

End Keys.

(** ** What the epoch loop and the scan are expected to compute *)

(** The conversions and divisions of lines 158-159 go through: both loaders
    have a batch, and their lengths and the batch size convert to finite
    floats. *)
Definition finite_int (n : Z) : bool := negb (is_infinity (float_of_Z n)).

Definition scalable (t : Trainer) : bool :=
  negb (Nat.eqb (length (train_dataloader t)) 0)
  && negb (Nat.eqb (length (dev_dataloader t)) 0)
  && finite_int (Z.of_nat (length (train_dataloader t)))
  && finite_int (Z.of_nat (length (dev_dataloader t)))
  && finite_int (batch_size t).

(** The per-sample scaling of a summed loss, as the description of the
    epoch states it: divide by the number of batches, multiply by the
    nominal batch size. *)
Definition scaled_loss (total : float) (n_batches : nat) (size : Z) : float :=
  (total / float_of_Z (Z.of_nat n_batches) * float_of_Z size)%float.

(** The unnormalized sum of a pass. *)
Definition summed (losses : list float) : float :=
  fold_left PrimFloat.add losses 0%float.

Section Merge.

Context `{Opaque}.

(** The four metric sequences of a file that can be read: it unpickles and
    has the four keys. *)
Definition file_history (d : gmap string File) (path : string)
  : option (list Z * list float * list float * list float) :=
  match d !! path with
  | Some (Pickle ck) =>
      match ck_epoch ck, ck_train_loss ck, ck_dev_loss ck, ck_dev_acc ck with
      | Some es, Some ts, Some ds, Some accs => Some (es, ts, ds, accs)
      | _, _, _, _ => None
      end
  | _ => None
  end.

(** Merging file by file, an unreadable file contributing nothing. *)
Definition merge_file (d : gmap string File) (acc : Merged) (path : string)
  : Merged :=
  match file_history d path with
  | Some (es, ts, ds, accs) =>
      {| all_epochs := all_epochs acc ++ es;
         all_train_losses := all_train_losses acc ++ ts;
         all_dev_losses := all_dev_losses acc ++ ds;
         all_dev_accuracies := all_dev_accuracies acc ++ accs |}
  | None => acc
  end.

Definition merge_readable (d : gmap string File) (paths : list string)
  : Merged :=
  fold_left (merge_file d) paths empty_merged.

End Merge.

(** ** Frames *)

Section Frame.

Context `{Collaborators}.

(** [preserves f m]: whatever [m] does, and however it ends, the observation
    [f] of the world is as before. *)
Definition preserves {A X} (f : World -> X) (m : M A) : Prop :=
  forall w, f (snd (m w)) = f w.

End Frame.

(** ** Ranges of the recorded metrics *)

(** A binary64 value that is zero, positive or plus infinity: what
    [0 <= x] tests. *)
Definition SF_nonneg (x : spec_float) : bool :=
  match x with
  | S754_zero _ | S754_infinity false | S754_finite false _ _ => true
  | _ => false
  end.

(** A value that is not NaN and carries the sign [s]. *)
Definition SF_signed (s : bool) (x : spec_float) : bool :=
  match x with
  | S754_zero s' | S754_infinity s' | S754_finite s' _ _ => Bool.eqb s s'
  | S754_nan => false
  end.

(** A positive float that is neither zero nor infinite. *)
Definition positive_finite (x : float) : bool :=
  match Prim2SF x with S754_finite false _ _ => true | _ => false end.

Definition nonneg (x : float) : bool := (0 <=? x)%float.

Definition in_unit (x : float) : bool := (0 <=? x)%float && (x <=? 1)%float.

Section Contracts.

Context `{Collaborators}.

(** Both loaders have a batch and the batch size is positive: the three
    integers of lines 158-159 convert to positive finite floats. *)
Definition well_sized (t : Trainer) : bool :=
  positive_finite (float_of_Z (Z.of_nat (length (train_dataloader t))))
  && positive_finite (float_of_Z (Z.of_nat (length (dev_dataloader t))))
  && positive_finite (float_of_Z (batch_size t)).

(** What the metric ranges assume of the collaborators: the CRF head
    returns a log-likelihood that is at most 0, [accuracy_score] returns a
    value of [0, 1], and [np.mean] of values of [0, 1] is in [0, 1]. *)
Definition loss_contract : Prop :=
  forall h b, (crf_log_likelihood h b <=? 0)%float = true.

Definition accuracy_contract : Prop :=
  forall h b, in_unit (accuracy_score h b) = true.

Definition mean_contract : Prop :=
  forall l, l <> [] -> Forall (fun x => in_unit x = true) l ->
            in_unit (np_mean l) = true.

End Contracts.

(** ** The accuracy axis of the chart *)

(** Python's [max(a, b)] and [min(a, b)] on two numbers: the first one, unless
    the second is strictly greater (smaller). *)
Definition py_max (a b : float) : float := if (a <? b)%float then b else a.

Definition py_min (a b : float) : float := if (b <? a)%float then b else a.

(** Lines 252-255 of [plot_loss_acc]: the limits handed to [ax2.set_ylim],
    for the non-empty tuple [dev_accuracies] (first element and rest).  The
    constant is Python's [0.1]. *)
Definition accuracy_ylim (first : float) (rest : list float) : float * float :=
  let min_acc := (fold_left py_min rest first * 100)%float in
  let max_acc := (fold_left py_max rest first * 100)%float in
  let margin := py_max 5 ((max_acc - min_acc) * 0x1.999999999999ap-4)%float in
  (py_max 0 (min_acc - margin)%float, py_min 100 (max_acc + margin)%float).

(** ** More calls to count *)

Section MoreTraces.

Context `{Opaque}.

(** The calls that update parameters, gradients, the scaler or the learning
    rate. *)
Definition is_update (c : Call) : bool :=
  match c with
  | OptimizerZeroGrad | ScalerScale | Backward | ScalerStep | ScalerUpdate
  | SchedulerStep _ => true
  | _ => false
  end.

Definition is_forward (c : Call) : bool :=
  match c with ModelForward _ => true | _ => false end.

Definition is_chart (c : Call) : bool :=
  match c with PlotChart _ => true | _ => false end.

(** The report of a completed epoch, line 162. *)
Definition is_epoch_record (c : Call) : bool :=
  match c with Print (LogEpoch _ _ _ _) => true | _ => false end.

End MoreTraces.

(** ** A concrete run: two training batches, one validation batch *)

Module Scenario.

Definition store : Opaque := {| Blob := Z; Hidden := Z |}.
#[local] Existing Instance store.

Definition contains_slash (s : string) : bool :=
  match index 0 "/" s with Some _ => true | None => false end.

(** A pattern with one star, which stands for any run of characters other
    than the path separator. *)
Definition glob_match (pattern name : string) : bool :=
  match index 0 "*" pattern with
  | Some i =>
      let pre := substring 0 i pattern in
      let post := substring (S i) (String.length pattern - S i) pattern in
      let n := String.length name in
      (String.length pre + String.length post <=? n)%nat
      && String.eqb (substring 0 (String.length pre) name) pre
      && String.eqb (substring (n - String.length post) (String.length post)
                               name) post
      && negb (contains_slash
                 (substring (String.length pre)
                            (n - String.length pre - String.length post) name))
  | None => String.eqb pattern name
  end.

(** The hidden state counts the optimizer steps, and a restored model state
    replaces it.  The loss of a batch is its first token id; the accuracy of
    a batch is a quarter of its first label. *)
Definition collaborators : @Collaborators store := {|
  effect := fun (c : @Call store) (h : Z) =>
    match c with
    | ScalerStep => h + 1
    | ModelLoadStateDict s => s
    | _ => h
    end;
  crf_log_likelihood := fun _ b =>
    match input_ids b with
    | x :: _ => (- float_of_Z x)%float
    | [] => 0%float
    end;
  accuracy_score := fun _ b =>
    match labels b with
    | x :: _ => (float_of_Z x / 4)%float
    | [] => 0%float
    end;
  model_state_dict := fun h => h;
  optimizer_state_dict := fun h => h;
  np_mean := fun l =>
    (fold_left PrimFloat.add l 0 / float_of_Z (Z.of_nat (length l)))%float;
  glob := fun pattern (d : gmap string (@File store)) =>
    filter (fun name => glob_match pattern name = true)
           (map fst (map_to_list d))
|}.

#[local] Existing Instance collaborators.

Definition batch (token label : Z) : Batch :=
  {| input_ids := [token]; attention_mask := [1]; labels := [label] |}.

Definition trainer : Trainer :=
  {| batch_size := 512;
     model_path := "./model/checkpoint/";
     train_dataloader := [batch 1 0; batch 3 0];
     dev_dataloader := [batch 2 2] |}.

Definition world (d : gmap string (@File store)) : @World store :=
  {| self_ := trainer; heap := 0; disk := d; trace := [] |}.

Definition fresh : @World store := world ∅.

(** A checkpoint of three epochs, as [fit(3)] writes it. *)
Definition checkpoint_3 : @Checkpoint store :=
  {| ck_model_state_dict := Some 6;
     ck_optimizer_state_dict := Some 6;
     ck_epoch := Some [1; 2; 3];
     ck_train_loss := Some [1024; 512; 256]%float;
     ck_dev_loss := Some [900; 600; 300]%float;
     ck_dev_acc := Some [0.25; 0.5; 0.75]%float |}.

(** The same dict without its ['dev_acc'] entry. *)
Definition checkpoint_3_without_dev_acc : @Checkpoint store :=
  {| ck_model_state_dict := Some 6;
     ck_optimizer_state_dict := Some 6;
     ck_epoch := Some [1; 2; 3];
     ck_train_loss := Some [1024; 512; 256]%float;
     ck_dev_loss := Some [900; 600; 300]%float;
     ck_dev_acc := None |}.

Definition checkpoint_5 : @Checkpoint store :=
  {| ck_model_state_dict := Some 10;
     ck_optimizer_state_dict := Some 10;
     ck_epoch := Some [4; 5];
     ck_train_loss := Some [128; 64]%float;
     ck_dev_loss := Some [150; 75]%float;
     ck_dev_acc := Some [0.875; 0.9375]%float |}.

Definition resumable : @World store :=
  world (<["./model/checkpoint/checkpoint_3.pth" := Pickle checkpoint_3]> ∅).

Definition damaged : @World store :=
  world (<["./model/checkpoint/checkpoint_3.pth" :=
             Pickle checkpoint_3_without_dev_acc]> ∅).

(** Three checkpoint files, the middle one unreadable. *)
Definition three_files : @World store :=
  world (<["./model/checkpoint/checkpoint_3.pth" := Pickle checkpoint_3]>
         (<["./model/checkpoint/checkpoint_4.pth" := Garbled]>
          (<["./model/checkpoint/checkpoint_5.pth" := Pickle checkpoint_5]>
           ∅))).

(** A trainer whose training loader is empty. *)
Definition no_training_data : @World store :=
  {| self_ := {| batch_size := 512;
                 model_path := "./model/checkpoint/";
                 train_dataloader := [];
                 dev_dataloader := [batch 2 2] |};
     heap := 0; disk := ∅; trace := [] |}.

(** Checkpoint 3 without its ['dev_loss'] entry, and without its two state
    dicts. *)
Definition checkpoint_3_without_dev_loss : @Checkpoint store :=
  {| ck_model_state_dict := Some 6;
     ck_optimizer_state_dict := Some 6;
     ck_epoch := Some [1; 2; 3];
     ck_train_loss := Some [1024; 512; 256]%float;
     ck_dev_loss := None;
     ck_dev_acc := Some [0.25; 0.5; 0.75]%float |}.

Definition checkpoint_3_metrics_only : @Checkpoint store :=
  {| ck_model_state_dict := None;
     ck_optimizer_state_dict := None;
     ck_epoch := Some [1; 2; 3];
     ck_train_loss := Some [1024; 512; 256]%float;
     ck_dev_loss := Some [900; 600; 300]%float;
     ck_dev_acc := Some [0.25; 0.5; 0.75]%float |}.

Definition checkpoint_3_model_only : @Checkpoint store :=
  {| ck_model_state_dict := Some 6;
     ck_optimizer_state_dict := None;
     ck_epoch := Some [1; 2; 3];
     ck_train_loss := Some [1024; 512; 256]%float;
     ck_dev_loss := Some [900; 600; 300]%float;
     ck_dev_acc := Some [0.25; 0.5; 0.75]%float |}.

(** Collaborators whose loss is 2^1020 on every batch (a log-likelihood of
    -2^1020) and whose accuracy is 0.5; [np_mean] stands for numpy's mean on
    the one-element lists of a one-batch validation pass. *)
Definition steep : @Collaborators store := {|
  effect := fun (c : @Call store) (h : Z) =>
    match c with
    | ScalerStep => h + 1
    | ModelLoadStateDict s => s
    | _ => h
    end;
  crf_log_likelihood := fun _ _ => (- 0x1p1020)%float;
  accuracy_score := fun _ _ => 0.5%float;
  model_state_dict := fun h => h;
  optimizer_state_dict := fun h => h;
  np_mean := fun l => match l with x :: _ => x | [] => nan end;
  glob := fun pattern (d : gmap string (@File store)) =>
    filter (fun name => glob_match pattern name = true)
           (map fst (map_to_list d))
|}.

(** One training batch, one validation batch, batch size 512, and a
    directory that holds checkpoint 3. *)
Definition one_batch : @World store :=
  {| self_ := {| batch_size := 512;
                 model_path := "./model/checkpoint/";
                 train_dataloader := [batch 1 0];
                 dev_dataloader := [batch 2 2] |};
     heap := 0;
     disk := <["./model/checkpoint/checkpoint_3.pth" := Pickle checkpoint_3]> ∅;
     trace := [] |}.

Definition holding (ck : @Checkpoint store) : @World store :=
  world (<["./model/checkpoint/checkpoint_3.pth" := Pickle ck]> ∅).

End Scenario.

(** * Properties *)

(** ** Rules of the monad *)

Section Rules.

Context `{Collaborators}.

Lemma bind_return {A B} (m : M A) (k : A -> M B) w a w' :
  m w = (Return a, w') -> bind m k w = k a w'.
Proof. intros Hm. unfold bind. by rewrite Hm. Qed.

Lemma bind_raise {A B} (m : M A) (k : A -> M B) w e w' :
  m w = (Raise e, w') -> bind m k w = (Raise e, w').
Proof. intros Hm. unfold bind. by rewrite Hm. Qed.

Lemma preserves_ret {A X} (f : World -> X) (a : A) : preserves f (ret a).
Proof. by intros w. Qed.

Lemma preserves_raise {A X} (f : World -> X) e :
  preserves f (raise e : M A).
Proof. by intros w. Qed.

Lemma preserves_bind {A B X} (f : World -> X) (m : M A) (k : A -> M B) :
  preserves f m -> (forall a, preserves f (k a)) -> preserves f (bind m k).
Proof.
  intros Hm Hk w. unfold bind. specialize (Hm w).
  destruct (m w) as [[a|e] w']; simpl in *; [|done].
  by rewrite Hk.
Qed.

Lemma preserves_try_except {A X} (f : World -> X) (m : M A) handler :
  preserves f m -> (forall e, preserves f (handler e)) ->
  preserves f (try_except m handler).
Proof.
  intros Hm Hh w. unfold try_except. specialize (Hm w).
  destruct (m w) as [[a|e] w']; simpl in *; [done|].
  by rewrite Hh.
Qed.

Lemma preserves_for_each {A S X} (f : World -> X) (body : A -> S -> M S) xs :
  (forall x s, preserves f (body x s)) ->
  forall s, preserves f (for_each xs body s).
Proof.
  intros Hbody. induction xs as [|x xs IH]; intros s; simpl.
  - apply preserves_ret.
  - apply preserves_bind; auto.
Qed.

Lemma preserves_for_in {A S X} (f : World -> X) (gen : Generator A)
      (body : A -> S -> M S) s :
  preserves f (gen_source gen) ->
  (forall b, preserves f (gen_body gen b)) ->
  (forall x s, preserves f (body x s)) ->
  preserves f (for_in gen body s).
Proof.
  intros Hsrc Hgen Hbody. unfold for_in.
  apply preserves_bind; [done|]. intros batches.
  apply preserves_for_each. intros b s'. by apply preserves_bind.
Qed.

Lemma preserves_call {X} (f : World -> X) c :
  (forall w, f (record_call c w) = f w) -> preserves f (call c).
Proof. intros Hc w. apply Hc. Qed.

Lemma preserves_call_value {A X} (f : World -> X) c (result : Hidden -> A) :
  (forall w, f (record_call c w) = f w) -> preserves f (call_value c result).
Proof. intros Hc w. apply Hc. Qed.

Lemma preserves_self_attr {A X} (f : World -> X) (attr : Trainer -> A) :
  preserves f (self_attr attr).
Proof. by intros w. Qed.

Lemma preserves_global {X} (f : World -> X) extra name :
  preserves f (global extra name).
Proof. intros w. unfold global. by destruct (resolves extra name). Qed.

Lemma preserves_torch_load {X} (f : World -> X) path :
  preserves f (torch_load path).
Proof.
  intros w. unfold torch_load. by destruct (disk w !! path) as [[ck|]|].
Qed.

Lemma preserves_getitem {A X} (f : World -> X) (field : option A) key :
  preserves f (getitem field key).
Proof. intros w. by destruct field. Qed.

Lemma preserves_last_item {A X} (f : World -> X) (l : list A) :
  preserves f (last_item l).
Proof. intros w. unfold last_item. by destruct (last l). Qed.

Lemma preserves_to_float {X} (f : World -> X) n : preserves f (to_float n).
Proof. intros w. unfold to_float. by destruct (is_infinity _). Qed.

Lemma preserves_truediv {X} (f : World -> X) x n : preserves f (truediv x n).
Proof.
  unfold truediv. apply preserves_bind; [apply preserves_to_float|].
  intros d w. by destruct (n =? 0).
Qed.

Lemma preserves_mul_int {X} (f : World -> X) x n : preserves f (mul_int x n).
Proof.
  unfold mul_int. apply preserves_bind; [apply preserves_to_float|].
  intros d. apply preserves_ret.
Qed.

Lemma preserves_list_files {X} (f : World -> X) pattern :
  preserves f (list_files pattern).
Proof. by intros w. Qed.

Lemma preserves_emit {X} (f : World -> X) c :
  (forall w, f (snd (emit c w)) = f w) -> preserves f (emit c).
Proof. intros Hc w. apply Hc. Qed.

Lemma count_snoc (p : Call -> bool) t c :
  count p (t ++ [c]) = (count p t + if p c then 1 else 0)%nat.
Proof.
  unfold count. rewrite List.filter_app, length_app. simpl.
  by destruct (p c).
Qed.

Lemma count_blind (p : Call -> bool) t c :
  p c = false -> count p (t ++ [c]) = count p t.
Proof. intros Hp. rewrite count_snoc, Hp. lia. Qed.

End Rules.

Ltac frame_leaf :=
  intros; first [ reflexivity | apply count_blind; reflexivity ].

Ltac frame :=
  repeat first
    [ apply preserves_ret | apply preserves_raise
    | apply preserves_self_attr | apply preserves_global
    | apply preserves_torch_load | apply preserves_getitem
    | apply preserves_last_item | apply preserves_truediv
    | apply preserves_mul_int | apply preserves_list_files
    | apply preserves_bind; [|intros]
    | apply preserves_try_except; [|intros]
    | apply preserves_for_each; intros
    | apply preserves_for_in; [|intros|intros]
    | apply preserves_call; frame_leaf
    | apply preserves_call_value; frame_leaf
    | apply preserves_emit; frame_leaf
    | match goal with
      | |- preserves _ (match ?x with _ => _ end) => destruct x
      | |- preserves _ ((match ?x with _ => _ end) _) => destruct x
      end ].

(** ** What the methods leave alone *)

Section Frames.

Context `{Collaborators}.

(** Nothing before the final [torch.save] touches the files. *)
Lemma resume_preserves_disk pretrain : preserves disk (resume pretrain).
Proof. unfold resume, print. frame. Qed.

Lemma epoch_body_preserves_disk extra start_epoch epoch hist :
  preserves disk (epoch_body extra start_epoch epoch hist).
Proof.
  unfold epoch_body, train_phase, dev_phase, record_epoch, per_sample,
    train_model, dev_model, print.
  frame.
Qed.

(** [fit] never rebinds an attribute of [self]. *)
Lemma fit_preserves_self extra epoch_num pretrain :
  preserves self_ (fit extra epoch_num pretrain).
Proof.
  unfold fit, resume, epoch_body, train_phase, dev_phase, record_epoch,
    per_sample, save_checkpoint, train_model, dev_model, print.
  frame. by intros w.
Qed.

(** The scan of [plot_loss_acc] only reads and prints. *)
Lemma scan_file_preserves {X} (f : World -> X) file_path acc :
  (forall c w, f (snd (emit c w)) = f w) ->
  preserves f (scan_file file_path acc).
Proof.
  intros Hemit. unfold scan_file, print.
  repeat first [ apply preserves_emit; intros; apply Hemit | frame ].
Qed.

End Frames.

(** ** The file as it is: no extra global names *)

Section Shipped.

Context `{Collaborators}.

(** [train_model] is not a global name: the first epoch stops at line 142,
    right after [self.model.train()]. *)
Lemma epoch_body_shipped start_epoch epoch hist w :
  epoch_body [] start_epoch epoch hist w
  = (Raise (NameError "train_model"), record_call ModelTrain w).
Proof. reflexivity. Qed.

Lemma epoch_loop_shipped start_epoch epoch_num hist w :
  1 <= epoch_num ->
  for_each (range 0 epoch_num) (epoch_body [] start_epoch) hist w
  = (Raise (NameError "train_model"), record_call ModelTrain w).
Proof.
  intros He. unfold range. rewrite seqZ_cons by lia. reflexivity.
Qed.

Lemma epoch_loop_skipped extra start_epoch epoch_num hist w :
  epoch_num <= 0 ->
  for_each (range 0 epoch_num) (epoch_body extra start_epoch) hist w
  = (Return hist, w).
Proof.
  intros He. unfold range. rewrite seqZ_nil by lia. reflexivity.
Qed.

(** The calls of a resume. *)
Lemma resume_counts (q : Call -> bool) pretrain :
  (forall s, q (ModelLoadStateDict s) = false) ->
  (forall s, q (OptimizerLoadStateDict s) = false) ->
  (forall line, q (Print line) = false) ->
  preserves (fun w => count q (trace w)) (resume pretrain).
Proof.
  intros Hml Hol Hprint. unfold resume, print.
  repeat first
    [ apply preserves_call; intros w; simpl; apply count_blind; auto
    | apply preserves_emit; intros w; simpl; apply count_blind; auto
    | frame ].
Qed.

(** The calls that [fit] can reach in the file as it is. *)
Lemma fit_shipped_counts (q : Call -> bool) epoch_num pretrain :
  q ModelTrain = false ->
  (forall s, q (ModelLoadStateDict s) = false) ->
  (forall s, q (OptimizerLoadStateDict s) = false) ->
  q ModelStateDict = false ->
  q OptimizerStateDict = false ->
  (forall path, q (TorchSave path) = false) ->
  (forall line, q (Print line) = false) ->
  preserves (fun w => count q (trace w)) (fit [] epoch_num pretrain).
Proof.
  intros Htrain Hml Hol Hms Hos Hsave Hprint.
  unfold fit. apply preserves_bind; [by apply resume_counts|].
  intros start_epoch. apply preserves_bind.
  - intros w. destruct (Z_lt_le_dec 0 epoch_num) as [Hpos|Hnon].
    + rewrite epoch_loop_shipped by lia. simpl. by apply count_blind.
    + by rewrite epoch_loop_skipped by lia.
  - intros hist. unfold save_checkpoint, torch_save.
    repeat first
      [ apply preserves_call_value; intros w; simpl; apply count_blind; auto
      | frame ].
    intros w. simpl. by apply count_blind.
Qed.

(** C1, on the file as it is.  A call [fit(epoch_num, pretrain)] with
    [epoch_num >= 1] ends in an exception, leaves every file as it was and
    never calls [torch.save]: either the resume fails, or the first epoch
    stops at [train_model()], which is not a global name.  No checkpoint
    [pretrain + epoch_num] is written. *)
Theorem fit_shipped_writes_no_checkpoint (w : World) (epoch_num pretrain : Z) :
  1 <= epoch_num ->
  exists e w',
    fit [] epoch_num pretrain w = (Raise e, w')
    /\ disk w' = disk w
    /\ count is_save (trace w') = count is_save (trace w).
Proof.
  intros He. unfold fit, bind.
  pose proof (resume_preserves_disk pretrain w) as Hdisk.
  pose proof (resume_counts is_save pretrain
                (fun _ => eq_refl) (fun _ => eq_refl) (fun _ => eq_refl) w)
    as Hsaves.
  simpl in Hsaves.
  destruct (resume pretrain w) as [[start_epoch|e] w1]; simpl in *.
  - rewrite epoch_loop_shipped by done.
    exists (NameError "train_model"), (record_call ModelTrain w1).
    split; [done|]. split; [done|]. simpl.
    by rewrite count_blind.
  - by exists e, w1.
Qed.

(** C2, on the file as it is.  No call of [fit] ever reaches
    [scheduler.step]: the number of scheduler steps in the trace is the same
    after the call as before, for every [epoch_num] and [pretrain]. *)
Theorem fit_shipped_never_steps_scheduler
        (w : World) (epoch_num pretrain : Z) :
  count is_scheduler_step (trace (snd (fit [] epoch_num pretrain w)))
  = count is_scheduler_step (trace w).
Proof. by apply (fit_shipped_counts is_scheduler_step). Qed.

(** C4, on the file as it is.  Iterating [train_model()] raises [NameError]
    on [self] at line 48, before the first batch: no loss is scaled, nothing
    is backpropagated, no optimizer step and no scaler update happen. *)
Theorem train_model_shipped_runs_no_step (w : World) :
  drain (train_model []) w = (Raise (NameError "self"), w).
Proof. reflexivity. Qed.

(** C5, on the file as it is.  [optimizer.zero_grad()] is never called, for
    no batch: neither when [train_model()] is iterated on its own, nor
    during a call of [fit]. *)
Theorem shipped_never_zeroes_gradients (w : World) (epoch_num pretrain : Z) :
  count is_zero_grad (trace (snd (drain (train_model []) w)))
  = count is_zero_grad (trace w)
  /\ count is_zero_grad (trace (snd (fit [] epoch_num pretrain w)))
     = count is_zero_grad (trace w).
Proof.
  split; [reflexivity|].
  by apply (fit_shipped_counts is_zero_grad).
Qed.

(** C7, on the file as it is.  [plot_loss_acc] stores its argument in
    [self.model_path] and then raises [NameError] on [os] at line 193: the
    directory is never listed, no file is read, nothing is logged and no
    series is built. *)
Theorem plot_loss_acc_shipped_aborts_before_scan (w : World) (path : string) :
  plot_loss_acc [] path w
  = (Raise (NameError "os"), snd (set_model_path path w)).
Proof. reflexivity. Qed.

End Shipped.

(** ** Resuming, and plotting, under any set of global names *)

Section AnyNamespace.

Context `{Collaborators}.

Variable extra : list string.


(** C10.  For a positive [pretrain] whose checkpoint can be resumed,
    [fit(0, pretrain)] returns normally and stores, under the very path it
    loaded, a dict whose epoch, train_loss, dev_loss and dev_acc sequences
    are all empty: the history that the file held is gone. *)
Theorem fit_zero_epochs_overwrites_resumed_checkpoint
        (w : World) (pretrain : Z) (ck : Checkpoint)
        (ms os : Blob) (es : list Z) (ts accs : list float) :
  0 < pretrain ->
  disk w !! checkpoint_path (model_path (self_ w)) pretrain
  = Some (Pickle ck) ->
  ck_model_state_dict ck = Some ms ->
  ck_optimizer_state_dict ck = Some os ->
  ck_epoch ck = Some es -> es <> [] ->
  ck_train_loss ck = Some ts -> ts <> [] ->
  ck_dev_acc ck = Some accs -> accs <> [] ->
  exists w' ms' os',
    fit extra 0 pretrain w = (Return tt, w')
    /\ disk w'
       = <[checkpoint_path (model_path (self_ w)) pretrain :=
             Pickle {| ck_model_state_dict := Some ms';
                       ck_optimizer_state_dict := Some os';
                       ck_epoch := Some [];
                       ck_train_loss := Some [];
                       ck_dev_loss := Some [];
                       ck_dev_acc := Some [] |}]> (disk w).
Proof.
  intros Hp Hfile Hms Hos Hes Hes' Hts Hts' Haccs Haccs'.
  assert (Hnz : (pretrain =? 0) = false) by (apply Z.eqb_neq; lia).
  destruct (last es) as [e|] eqn:Hle; [|by apply last_None in Hle].
  destruct (last ts) as [t|] eqn:Hlt; [|by apply last_None in Hlt].
  destruct (last accs) as [a|] eqn:Hla; [|by apply last_None in Hla].
  unfold fit, resume, bind, self_attr, torch_load, last_item.
  rewrite Hnz, Hfile, Hms; simpl. rewrite Hos; simpl. rewrite Hes; simpl.
  rewrite Hle, Hts; simpl. rewrite Hlt, Haccs; simpl. rewrite Hla; simpl.
  unfold save_checkpoint, bind, call_value, self_attr, torch_save, range.
  simpl. rewrite (seqZ_nil (pretrain + 1)) by lia. rewrite Z.add_0_r.
  eexists _, _, _. split; reflexivity.
Qed.

Lemma scan_and_plot_preserves {X} (f : World -> X) :
  (forall c w, f (snd (emit c w)) = f w) ->
  preserves f (scan_and_plot extra).
Proof.
  intros Hemit. unfold scan_and_plot.
  repeat first
    [ apply scan_file_preserves; exact Hemit
    | apply preserves_emit; intros; apply Hemit
    | frame ].
Qed.

(** C8, as amended.  Whatever names resolve and however it ends,
    [plot_loss_acc(path)] changes one attribute of the trainer: it sets
    [model_path], the directory that [fit] loads from and saves to, to its
    argument.  The other attributes, the collaborators' state and the
    files are as before. *)
Theorem plot_loss_acc_changes_only_model_path (w : World) (path : string) :
  self_ (snd (plot_loss_acc extra path w))
  = {| batch_size := batch_size (self_ w);
       model_path := path;
       train_dataloader := train_dataloader (self_ w);
       dev_dataloader := dev_dataloader (self_ w) |}
  /\ heap (snd (plot_loss_acc extra path w)) = heap w
  /\ disk (snd (plot_loss_acc extra path w)) = disk w.
Proof.
  assert (Hrun : snd (plot_loss_acc extra path w)
                 = snd (scan_and_plot extra (snd (set_model_path path w))))
    by reflexivity.
  rewrite Hrun. repeat split; by rewrite scan_and_plot_preserves.
Qed.

End AnyNamespace.

(** ** The methods once their free names resolve *)

Section Resolved.

Context `{Collaborators}.

Variable extra : list string.

(** A consumer that only folds what the generator yields sees exactly the
    yields of [list(gen())]. *)
Lemma for_each_fold {A S} (body : Batch -> M A) (consumer : A -> S -> M S)
      (f : S -> A -> S) (batches : list Batch) :
  (forall x s, consumer x s = ret (f s x)) ->
  forall acc s0 w,
    for_each batches (fun b s => bind (body b) (fun x => consumer x s))
             (fold_left f acc s0) w
    = match for_each batches
              (fun b xs => bind (body b) (fun x => ret (xs ++ [x]))) acc w with
      | (Return xs, w') => (Return (fold_left f xs s0), w')
      | (Raise e, w') => (Raise e, w')
      end.
Proof.
  intros Hpure. induction batches as [|b batches IH]; intros acc s0 w.
  - reflexivity.
  - simpl. unfold bind, ret in *.
    destruct (body b w) as [[x|e] w1]; [|done].
    rewrite Hpure.
    replace (f (fold_left f acc s0) x) with (fold_left f (acc ++ [x]) s0)
      by (by rewrite fold_left_app).
    by rewrite IH.
Qed.

Lemma for_in_drain {A S} (gen : Generator A) (consumer : A -> S -> M S)
      (f : S -> A -> S) (s0 : S) (w : World) :
  (forall x s, consumer x s = ret (f s x)) ->
  for_in gen consumer s0 w
  = match drain gen w with
    | (Return xs, w') => (Return (fold_left f xs s0), w')
    | (Raise e, w') => (Raise e, w')
    end.
Proof.
  intros Hpure. unfold drain, for_in, bind.
  destruct (gen_source gen w) as [[batches|e] w1]; [|done].
  apply (for_each_fold (gen_body gen) consumer f batches Hpure [] s0 w1).
Qed.

(** One batch of the training generator: in this order, the gradients are
    zeroed, the forward pass and the loss run, the loss is scaled and
    backpropagated, the scaler steps the optimizer and is updated. *)
Lemma train_body_trace (b : Batch) (w : World) :
  exists loss w',
    gen_body (train_model extra) b w = (Return loss, w')
    /\ trace w' = trace w ++ train_batch_calls b
    /\ self_ w' = self_ w
    /\ disk w' = disk w.
Proof.
  eexists _, _. split.
  - cbv [gen_body train_model bind call call_value ret]. reflexivity.
  - simpl. repeat split. by rewrite <- !app_assoc.
Qed.

Lemma dev_body_trace (b : Batch) (w : World) :
  exists yield w',
    gen_body (dev_model extra) b w = (Return yield, w')
    /\ trace w' = trace w ++ dev_batch_calls b
    /\ self_ w' = self_ w
    /\ disk w' = disk w.
Proof.
  eexists _, _. split.
  - cbv [gen_body dev_model bind call call_value ret]. reflexivity.
  - simpl. repeat split. by rewrite <- !app_assoc.
Qed.

(** A pass over the batches, for a body that runs like the two above. *)
Lemma pass_trace {A} (body : Batch -> M A) (calls : Batch -> list Call) :
  (forall b w, exists x w',
      body b w = (Return x, w')
      /\ trace w' = trace w ++ calls b
      /\ self_ w' = self_ w
      /\ disk w' = disk w) ->
  forall batches acc w,
  exists yields w',
    for_each batches
      (fun b xs => bind (body b) (fun x => ret (xs ++ [x]))) acc w
    = (Return (acc ++ yields), w')
    /\ length yields = length batches
    /\ trace w' = trace w ++ concat (map calls batches)
    /\ self_ w' = self_ w
    /\ disk w' = disk w.
Proof.
  intros Hbody batches.
  induction batches as [|b batches IH]; intros acc w.
  - exists [], w. simpl. by rewrite !app_nil_r.
  - destruct (Hbody b w) as (x & w1 & Hb & Htr1 & Hs1 & Hd1).
    destruct (IH (acc ++ [x]) w1) as (ys & w' & Hrun & Hlen & Htr & Hs & Hd).
    exists (x :: ys), w'. cbn [for_each].
    erewrite bind_return; [|erewrite bind_return; [reflexivity|exact Hb]].
    rewrite Hrun, Htr, Htr1, Hs, Hd. simpl.
    repeat split; try done.
    + by rewrite <- app_assoc.
    + by rewrite Hlen.
    + by rewrite <- !app_assoc.
Qed.

Lemma drain_train_model (w : World) :
  resolves extra "self" = true ->
  exists losses w',
    drain (train_model extra) w = (Return losses, w')
    /\ length losses = length (train_dataloader (self_ w))
    /\ trace w'
       = trace w ++ concat (map train_batch_calls (train_dataloader (self_ w)))
    /\ self_ w' = self_ w
    /\ disk w' = disk w.
Proof.
  intros Hself. unfold drain, for_in.
  erewrite bind_return;
    [|cbn [gen_source train_model]; unfold global; rewrite Hself;
      reflexivity].
  apply (pass_trace _ _ train_body_trace (train_dataloader (self_ w)) [] w).
Qed.

Lemma drain_dev_model (w : World) :
  resolves extra "self" = true ->
  exists yields w',
    drain (dev_model extra) w = (Return yields, w')
    /\ length yields = length (dev_dataloader (self_ w))
    /\ trace w'
       = trace w ++ concat (map dev_batch_calls (dev_dataloader (self_ w)))
    /\ self_ w' = self_ w
    /\ disk w' = disk w.
Proof.
  intros Hself. unfold drain, for_in.
  erewrite bind_return;
    [|cbn [gen_source dev_model]; unfold global; rewrite Hself;
      reflexivity].
  apply (pass_trace _ _ dev_body_trace (dev_dataloader (self_ w)) [] w).
Qed.

Section EpochLoop.

Hypothesis self_bound : resolves extra "self" = true.
Hypothesis train_model_bound : resolves extra "train_model" = true.
Hypothesis dev_model_bound : resolves extra "dev_model" = true.
Hypothesis scheduler_bound : resolves extra "scheduler" = true.

(** The training pass of an epoch returns the plain sum of what the
    generator yields. *)
Lemma train_phase_sums (w : World) :
  exists losses w',
    drain (train_model extra) (record_call ModelTrain w) = (Return losses, w')
    /\ train_phase extra w = (Return (summed losses), w')
    /\ trace w'
       = trace w ++ ModelTrain
           :: concat (map train_batch_calls (train_dataloader (self_ w)))
    /\ self_ w' = self_ w
    /\ disk w' = disk w.
Proof.
  destruct (drain_train_model (record_call ModelTrain w) self_bound)
    as (losses & w' & Hdrain & _ & Htr & Hs & Hd).
  exists losses, w'. split; [done|]. split.
  - unfold train_phase.
    erewrite bind_return by reflexivity.
    erewrite bind_return
      by (unfold global; rewrite train_model_bound; reflexivity).
    rewrite (for_in_drain _ _ PrimFloat.add) by reflexivity.
    by rewrite Hdrain.
  - rewrite Htr. simpl. by rewrite <- app_assoc.
Qed.

Lemma fold_dev_yields (yields : list (float * float)) :
  forall total accs,
    fold_left (fun (s : float * list float) (x : float * float) =>
                 ((fst s + fst x)%float, snd s ++ [snd x]))
              yields (total, accs)
    = (fold_left PrimFloat.add (map fst yields) total,
       accs ++ map snd yields).
Proof.
  induction yields as [|[loss acc] yields IH]; intros total accs; simpl.
  - by rewrite app_nil_r.
  - rewrite IH. by rewrite <- app_assoc.
Qed.

(** The validation pass of an epoch is followed by one scheduler step, whose
    argument is the plain sum of the validation losses. *)
Lemma dev_phase_steps_scheduler (w : World) :
  exists yields w',
    drain (dev_model extra) (record_call ModelEval w) = (Return yields, w')
    /\ dev_phase extra w
       = (Return (summed (map fst yields), map snd yields),
          record_call (SchedulerStep (summed (map fst yields))) w')
    /\ trace w'
       = trace w ++ ModelEval
           :: concat (map dev_batch_calls (dev_dataloader (self_ w)))
    /\ self_ w' = self_ w
    /\ disk w' = disk w.
Proof.
  destruct (drain_dev_model (record_call ModelEval w) self_bound)
    as (yields & w' & Hdrain & _ & Htr & Hs & Hd).
  exists yields, w'. split; [done|]. split.
  - unfold dev_phase.
    erewrite bind_return by reflexivity.
    erewrite bind_return.
    2:{ erewrite bind_return
          by (unfold global; rewrite dev_model_bound; reflexivity).
        rewrite (for_in_drain _ _
                   (fun (s : float * list float) (x : float * float) =>
                      ((fst s + fst x)%float, snd s ++ [snd x])))
          by (by intros [loss acc] [total accs]).
        rewrite Hdrain, fold_dev_yields. reflexivity. }
    cbv beta iota.
    erewrite bind_return
      by (unfold global; rewrite scheduler_bound; reflexivity).
    reflexivity.
  - rewrite Htr. simpl. by rewrite <- app_assoc.
Qed.

(** Lines 158-159: the reported loss is the sum, divided by the number of
    batches of the loader and multiplied by the batch size. *)
Lemma per_sample_scales (total : float) (loader : Trainer -> list Batch)
      (w : World) :
  length (loader (self_ w)) <> 0%nat ->
  finite_int (Z.of_nat (length (loader (self_ w)))) = true ->
  finite_int (batch_size (self_ w)) = true ->
  per_sample total loader w
  = (Return (scaled_loss total (length (loader (self_ w)))
                         (batch_size (self_ w))), w).
Proof.
  unfold finite_int. intros Hlen Hn Hsize.
  apply negb_true_iff in Hn, Hsize.
  unfold per_sample, truediv, mul_int, to_float, bind, self_attr.
  rewrite Hn. unfold ret at 1.
  destruct (Z.of_nat (length (loader (self_ w))) =? 0) eqn:Hz;
    [apply Z.eqb_eq in Hz; lia|].
  unfold ret at 1. by rewrite Hsize.
Qed.

Lemma scalable_spec (t : Trainer) :
  scalable t = true ->
  length (train_dataloader t) <> 0%nat
  /\ length (dev_dataloader t) <> 0%nat
  /\ finite_int (Z.of_nat (length (train_dataloader t))) = true
  /\ finite_int (Z.of_nat (length (dev_dataloader t))) = true
  /\ finite_int (batch_size t) = true.
Proof.
  unfold scalable. rewrite !andb_true_iff, !negb_true_iff, !Nat.eqb_neq.
  tauto.
Qed.

(** One epoch, from [self.model.train()] to the four [append]s. *)
Lemma epoch_body_resolved (start_epoch epoch : Z) (hist : History)
      (w : World) :
  scalable (self_ w) = true ->
  exists losses yields w1 w2,
    drain (train_model extra) (record_call ModelTrain w) = (Return losses, w1)
    /\ drain (dev_model extra) (record_call ModelEval w1)
       = (Return yields, w2)
    /\ let train_loss :=
         scaled_loss (summed losses) (length (train_dataloader (self_ w)))
                     (batch_size (self_ w)) in
       let dev_loss :=
         scaled_loss (summed (map fst yields))
                     (length (dev_dataloader (self_ w)))
                     (batch_size (self_ w)) in
       let dev_acc := np_mean (map snd yields) in
       let report := LogEpoch (start_epoch + epoch + 1) train_loss dev_loss
                              dev_acc in
       epoch_body extra start_epoch epoch hist w
       = (Return {| epoch_list := epoch_list hist ++ [start_epoch + epoch + 1];
                    train_loss_list := train_loss_list hist ++ [train_loss];
                    dev_loss_list := dev_loss_list hist ++ [dev_loss];
                    dev_acc_list := dev_acc_list hist ++ [dev_acc] |},
          snd (print report
                 (record_call (SchedulerStep (summed (map fst yields))) w2)))
       /\ trace w2
          = trace w
            ++ ModelTrain
               :: concat (map train_batch_calls (train_dataloader (self_ w)))
            ++ ModelEval
               :: concat (map dev_batch_calls (dev_dataloader (self_ w)))
       /\ self_ w2 = self_ w
       /\ disk w2 = disk w.
Proof.
  intros Hscal.
  destruct (scalable_spec _ Hscal) as (Htrain & Hdev & Hnt & Hnd & Hsize).
  destruct (train_phase_sums w) as (losses & w1 & Hd1 & Hrun1 & Htr1 & Hs1 & Hk1).
  destruct (dev_phase_steps_scheduler w1)
    as (yields & w2 & Hd2 & Hrun2 & Htr2 & Hs2 & Hk2).
  exists losses, yields, w1, w2. split; [done|]. split; [done|].
  cbv zeta. repeat split.
  - unfold epoch_body.
    erewrite bind_return by exact Hrun1.
    erewrite bind_return by exact Hrun2.
    cbv beta iota. unfold record_epoch.
    erewrite bind_return.
    2:{ apply per_sample_scales; simpl; rewrite Hs2, Hs1; done. }
    erewrite bind_return.
    2:{ apply per_sample_scales; simpl; rewrite Hs2, Hs1; done. }
    unfold bind, print, emit, ret. simpl. by rewrite Hs2, Hs1.
  - rewrite Htr2, Htr1, Hs1. by rewrite <- app_assoc.
  - by rewrite Hs2.
  - by rewrite Hk2.
Qed.

Lemma count_app (q : Call -> bool) (t u : list Call) :
  count q (t ++ u) = (count q t + count q u)%nat.
Proof. unfold count. by rewrite List.filter_app, length_app. Qed.

Lemma count_cons (q : Call -> bool) (c : Call) (t : list Call) :
  count q (c :: t) = ((if q c then 1 else 0) + count q t)%nat.
Proof. unfold count. simpl. by destruct (q c). Qed.

Lemma count_pass (q : Call -> bool) (calls : Batch -> list Call) batches :
  (forall b, count q (calls b) = 0%nat) ->
  count q (concat (map calls batches)) = 0%nat.
Proof.
  intros Hcalls. induction batches as [|b batches IH]; simpl; [done|].
  by rewrite count_app, Hcalls, IH.
Qed.

Lemma resume_preserves_self pretrain : preserves self_ (resume pretrain).
Proof. unfold resume, print. frame. Qed.

(** The epochs of one call: one record and one scheduler step each, no file
    written. *)
Lemma epoch_loop_resolved (start_epoch : Z) (epochs : list Z) :
  forall hist w,
    scalable (self_ w) = true ->
    exists hist' w',
      for_each epochs (epoch_body extra start_epoch) hist w = (Return hist', w')
      /\ length (train_loss_list hist')
         = (length (train_loss_list hist) + length epochs)%nat
      /\ length (dev_loss_list hist')
         = (length (dev_loss_list hist) + length epochs)%nat
      /\ length (dev_acc_list hist')
         = (length (dev_acc_list hist) + length epochs)%nat
      /\ self_ w' = self_ w
      /\ disk w' = disk w
      /\ count is_scheduler_step (trace w')
         = (count is_scheduler_step (trace w) + length epochs)%nat
      /\ count is_save (trace w') = count is_save (trace w).
Proof.
  induction epochs as [|epoch epochs IH]; intros hist w Hscal.
  - exists hist, w. simpl. repeat split; lia.
  - destruct (epoch_body_resolved start_epoch epoch hist w Hscal)
      as (losses & yields & w1 & w2 & _ & _ & Hrun & Htr & Hs & Hd).
    cbv zeta in Hrun.
    match type of Hrun with
    | _ = (Return ?h, ?w3) =>
        assert (Hscal3 : scalable (self_ w3) = true)
          by (simpl; by rewrite Hs);
        destruct (IH h w3 Hscal3)
          as (hist' & w' & Hloop & Hl1 & Hl2 & Hl3 & Hs' & Hd'
              & Hsched & Hsave)
    end.
    exists hist', w'. cbn [for_each].
    erewrite bind_return by exact Hrun.
    split; [exact Hloop|].
    simpl in Hl1, Hl2, Hl3, Hs', Hd', Hsched, Hsave.
    rewrite length_app in Hl1, Hl2, Hl3. simpl in Hl1, Hl2, Hl3.
    rewrite Hs', Hd', Hs, Hd, Hl1, Hl2, Hl3, Hsched, Hsave. simpl.
    rewrite !count_snoc, Htr.
    repeat rewrite ?count_app, ?count_cons.
    rewrite !count_pass by (intros; reflexivity). simpl.
    repeat split; lia.
Qed.

(** C1 once the names resolve.  With a batch in each loader and a resume
    that succeeds (or none), [fit] returns normally, calls [torch.save]
    once, and that call stores under [pretrain + epoch_num] a dict whose
    epoch sequence is [range(pretrain + 1, pretrain + epoch_num + 1)] and
    whose three metric sequences have one entry per epoch of this call. *)
Lemma fit_resolved_checkpoint (w : World) (epoch_num pretrain : Z)
      (start_epoch : Z) (w0 : World) :
  scalable (self_ w) = true ->
  resume pretrain w = (Return start_epoch, w0) ->
  exists w' ms os ts ds accs,
    fit extra epoch_num pretrain w = (Return tt, w')
    /\ disk w'
       = <[checkpoint_path (model_path (self_ w)) (pretrain + epoch_num) :=
             Pickle {| ck_model_state_dict := Some ms;
                       ck_optimizer_state_dict := Some os;
                       ck_epoch :=
                         Some (range (pretrain + 1) (pretrain + epoch_num + 1));
                       ck_train_loss := Some ts;
                       ck_dev_loss := Some ds;
                       ck_dev_acc := Some accs |}]> (disk w)
    /\ length ts = Z.to_nat epoch_num
    /\ length ds = Z.to_nat epoch_num
    /\ length accs = Z.to_nat epoch_num
    /\ count is_save (trace w') = S (count is_save (trace w))
    /\ count is_scheduler_step (trace w')
       = (count is_scheduler_step (trace w) + Z.to_nat epoch_num)%nat.
Proof.
  intros Hscal Hres.
  pose proof (resume_preserves_self pretrain w) as Hs0.
  pose proof (resume_preserves_disk pretrain w) as Hd0.
  pose proof (resume_counts is_save pretrain
                (fun _ => eq_refl) (fun _ => eq_refl) (fun _ => eq_refl) w)
    as Hsave0.
  pose proof (resume_counts is_scheduler_step pretrain
                (fun _ => eq_refl) (fun _ => eq_refl) (fun _ => eq_refl) w)
    as Hsched0.
  rewrite Hres in Hs0, Hd0, Hsave0, Hsched0. simpl in *.
  assert (Hscal0 : scalable (self_ w0) = true) by (by rewrite Hs0).
  destruct (epoch_loop_resolved start_epoch (range 0 epoch_num)
              empty_history w0 Hscal0)
    as (hist & w1 & Hloop & Hl1 & Hl2 & Hl3 & Hs1 & Hd1 & Hsched & Hsave).
  unfold range in Hl1, Hl2, Hl3, Hsched.
  rewrite length_seqZ, Z.sub_0_r in Hl1, Hl2, Hl3, Hsched. simpl in *.
  eexists _, _, _, (train_loss_list hist), (dev_loss_list hist),
    (dev_acc_list hist).
  split.
  - unfold fit.
    erewrite bind_return by exact Hres.
    erewrite bind_return by exact Hloop.
    unfold save_checkpoint.
    erewrite bind_return by reflexivity.
    erewrite bind_return by reflexivity.
    erewrite bind_return by reflexivity.
    reflexivity.
  - simpl. rewrite Hs1, Hs0, Hd1, Hd0, Hl1, Hl2, Hl3.
    rewrite !count_snoc, Hsave, Hsave0, Hsched, Hsched0. simpl.
    repeat split; lia.
Qed.

End EpochLoop.

End Resolved.

(** ** The scan of the checkpoint directory *)

Section Scan.

Context `{Collaborators}.

(** One file of the scan: a file that cannot be read is reported and adds
    nothing; a readable one extends the four lists.  The loop goes on in
    both cases. *)
Lemma scan_file_merges (file_path : string) (acc : Merged) (w : World) :
  exists w',
    scan_file file_path acc w
    = (Return (merge_file (disk w) acc file_path), w')
    /\ disk w' = disk w
    /\ (file_history (disk w) file_path = None ->
        exists e,
          trace w'
          = trace w ++ [Print (LogPath file_path);
                        Print (LogReadError file_path e)]).
Proof.
  unfold scan_file, try_except, bind, print, emit, torch_load, merge_file,
    file_history, getitem.
  simpl. destruct (disk w !! file_path) as [[ck|]|]; simpl.
  - destruct (ck_epoch ck) as [es|]; simpl.
    2:{ eexists. repeat split. intros _. eexists. by rewrite <- app_assoc. }
    destruct (ck_train_loss ck) as [ts|]; simpl.
    2:{ eexists. repeat split. intros _. eexists. by rewrite <- app_assoc. }
    destruct (ck_dev_loss ck) as [ds|]; simpl.
    2:{ eexists. repeat split. intros _. eexists. by rewrite <- app_assoc. }
    destruct (ck_dev_acc ck) as [accs|]; simpl.
    2:{ eexists. repeat split. intros _. eexists. by rewrite <- app_assoc. }
    eexists. repeat split. intros Hnone. discriminate Hnone.
  - eexists. repeat split. intros _. eexists. by rewrite <- app_assoc.
  - eexists. repeat split. intros _. eexists. by rewrite <- app_assoc.
Qed.

(** The whole scan never raises, and merges exactly the readable files, in
    the order of the listing. *)
Lemma scan_merges_readable (pth_files : list string) :
  forall acc w,
  exists w',
    for_each pth_files scan_file acc w
    = (Return (fold_left (merge_file (disk w)) pth_files acc), w')
    /\ disk w' = disk w.
Proof.
  induction pth_files as [|file_path pth_files IH]; intros acc w.
  - by exists w.
  - destruct (scan_file_merges file_path acc w) as (w1 & Hscan & Hd1 & _).
    destruct (IH (merge_file (disk w) acc file_path) w1) as (w' & Hrest & Hd).
    exists w'. cbn [for_each fold_left].
    erewrite bind_return by exact Hscan.
    rewrite Hrest, Hd, Hd1. done.
Qed.

(** Lines 192-264 once [os] and [plt] resolve: the chart is drawn from the
    records of the readable files, one unreadable file or several
    notwithstanding. *)
Lemma scan_and_plot_resolved (extra : list string) (w : World) :
  resolves extra "os" = true ->
  resolves extra "plt" = true ->
  let pth_files :=
    glob (os_path_join (model_path (self_ w)) "checkpoint_*.pth") (disk w) in
  let rows := merged_rows (merge_readable (disk w) pth_files) in
  rows <> [] ->
  exists w',
    scan_and_plot extra w = (Return tt, w')
    /\ last (trace w') = Some (PlotChart rows).
Proof.
  intros Hos Hplt pth_files rows Hrows.
  destruct (scan_merges_readable pth_files empty_merged w)
    as (w1 & Hscan & Hd).
  unfold scan_and_plot.
  erewrite bind_return by (unfold global; rewrite Hos; reflexivity).
  erewrite bind_return by reflexivity.
  erewrite bind_return by reflexivity.
  erewrite bind_return by exact Hscan.
  fold (merge_readable (disk w) pth_files). fold rows.
  destruct rows as [|row rows']; [done|].
  erewrite bind_return by reflexivity.
  erewrite bind_return by (unfold global; rewrite Hplt; reflexivity).
  eexists. split; [reflexivity|]. simpl. by rewrite last_snoc.
Qed.

End Scan.

(** ** The concrete run *)

Section ScenarioRuns.

#[local] Existing Instance Scenario.store.
#[local] Existing Instance Scenario.collaborators.

(** C3, on the file as it is.  With two training batches of losses 1.0 and
    3.0 and a batch size of 512, [fit(1)] prints that it starts afresh,
    switches the model to training mode and raises [NameError] on
    [train_model]: no loss is summed, scaled, reported or stored. *)
Theorem scenario_shipped_reports_no_loss :
  fst (fit [] 1 0 Scenario.fresh) = Raise (NameError "train_model")
  /\ trace (snd (fit [] 1 0 Scenario.fresh)) = [Print LogFresh; ModelTrain]
  /\ disk (snd (fit [] 1 0 Scenario.fresh)) = ∅.
Proof. vm_compute. repeat split. Qed.

(** The same run once the six names resolve: the reported training loss is
    (1.0 + 3.0) / 2 * 512 = 1024.0, the validation loss is scaled in the same
    way (2.0 / 1 * 512), and the scheduler has seen the unscaled 2.0. *)
Lemma scenario_resolved_reports_1024 :
  fst (fit repaired 1 0 Scenario.fresh) = Return tt
  /\ List.filter (fun c => is_scheduler_step c
                           || match c with Print _ => true | _ => false end)
                 (trace (snd (fit repaired 1 0 Scenario.fresh)))
     = [Print LogFresh; SchedulerStep 2;
        Print (LogEpoch 1 1024 1024 0.5)]
  /\ disk (snd (fit repaired 1 0 Scenario.fresh))
       !! "./model/checkpoint/checkpoint_1.pth"
     = Some (Pickle {| ck_model_state_dict := Some 2;
                       ck_optimizer_state_dict := Some 2;
                       ck_epoch := Some [1];
                       ck_train_loss := Some [1024%float];
                       ck_dev_loss := Some [1024%float];
                       ck_dev_acc := Some [0.5%float] |}).
Proof. vm_compute. repeat split. Qed.

(** The scan once [os] and [plt] resolve: of the three files the unreadable
    one is reported and skipped, and the chart is drawn from the five
    records of the other two. *)
Lemma scenario_resolved_scan_skips_unreadable :
  fst (plot_loss_acc repaired "./model/checkpoint" Scenario.three_files)
  = Return tt
  /\ trace (snd (plot_loss_acc repaired "./model/checkpoint"
                               Scenario.three_files))
     = [Print (LogPath "./model/checkpoint/checkpoint_3.pth");
        Print (LogPath "./model/checkpoint/checkpoint_5.pth");
        Print (LogPath "./model/checkpoint/checkpoint_4.pth");
        Print (LogReadError "./model/checkpoint/checkpoint_4.pth"
                            UnpicklingError);
        PlotChart [(1, 1024%float, 900%float, 0.25%float);
                   (2, 512%float, 600%float, 0.5%float);
                   (3, 256%float, 300%float, 0.75%float);
                   (4, 128%float, 150%float, 0.875%float);
                   (5, 64%float, 75%float, 0.9375%float)]].
Proof. vm_compute. repeat split. Qed.

(** C8 as stated fails.  After [plot_loss_acc("./runs/")] the trainer's
    [model_path] is ["./runs/"], whether the call stops at [os] or runs to
    the end, and the next [fit] saves there instead of under
    ["./model/checkpoint/"]. *)
Lemma plot_loss_acc_rebinds_save_path :
  self_ (snd (plot_loss_acc [] "./runs/" Scenario.three_files))
  <> self_ Scenario.three_files
  /\ self_ (snd (plot_loss_acc repaired "./runs/" Scenario.three_files))
     <> self_ Scenario.three_files
  /\ disk (snd (fit [] 0 0 Scenario.three_files))
       !! "./model/checkpoint/checkpoint_0.pth" <> None
  /\ disk (snd (fit [] 0 0
                    (snd (plot_loss_acc [] "./runs/" Scenario.three_files))))
       !! "./model/checkpoint/checkpoint_0.pth" = None
  /\ disk (snd (fit [] 0 0
                    (snd (plot_loss_acc [] "./runs/" Scenario.three_files))))
       !! "./runs/checkpoint_0.pth" <> None.
Proof. vm_compute. repeat split; congruence. Qed.

(** A run of C1's theorem. *)
Lemma fit_shipped_writes_no_checkpoint_witness :
  1 <= 1
  /\ exists e w',
       fit [] 1 0 Scenario.fresh = (Raise e, w')
       /\ disk w' = disk Scenario.fresh
       /\ count is_save (trace w') = count is_save (trace Scenario.fresh).
Proof.
  split; [lia|].
  apply (fit_shipped_writes_no_checkpoint Scenario.fresh 1 0). lia.
Defined.



(** A run of C10's theorem: [fit(0, 3)] on a directory that holds
    checkpoint 3. *)
Lemma fit_zero_epochs_overwrites_resumed_checkpoint_witness :
  0 < 3
  /\ exists w' ms' os',
       fit [] 0 3 Scenario.resumable = (Return tt, w')
       /\ disk w'
          = <[checkpoint_path (model_path (self_ Scenario.resumable)) 3 :=
                Pickle {| ck_model_state_dict := Some ms';
                          ck_optimizer_state_dict := Some os';
                          ck_epoch := Some [];
                          ck_train_loss := Some [];
                          ck_dev_loss := Some [];
                          ck_dev_acc := Some [] |}]>
              (disk Scenario.resumable).
Proof.
  split; [lia|].
  apply (fit_zero_epochs_overwrites_resumed_checkpoint
           [] Scenario.resumable 3 Scenario.checkpoint_3
           6 6 [1; 2; 3] [1024; 512; 256]%float [0.25; 0.5; 0.75]%float);
    first [ lia | discriminate | vm_compute; reflexivity ].
Defined.

End ScenarioRuns.

(** * Further properties of the code *)

(** ** [fit]: what it touches, and runs without an epoch *)

Section FitEdges.

Context `{Collaborators}.

Variable extra : list string.

Lemma epoch_body_preserves_self start_epoch epoch hist :
  preserves self_ (epoch_body extra start_epoch epoch hist).
Proof.
  unfold epoch_body, train_phase, dev_phase, record_epoch, per_sample,
    train_model, dev_model, print.
  frame.
Qed.

(** Lines 167-177 always go through. *)
Lemma save_checkpoint_writes (epoch_num pretrain : Z) (hist : History)
      (w : World) :
  exists w' ms os,
    save_checkpoint epoch_num pretrain hist w = (Return tt, w')
    /\ self_ w' = self_ w
    /\ disk w'
       = <[checkpoint_path (model_path (self_ w)) (pretrain + epoch_num) :=
             Pickle {| ck_model_state_dict := Some ms;
                       ck_optimizer_state_dict := Some os;
                       ck_epoch :=
                         Some (range (pretrain + 1) (pretrain + epoch_num + 1));
                       ck_train_loss := Some (train_loss_list hist);
                       ck_dev_loss := Some (dev_loss_list hist);
                       ck_dev_acc := Some (dev_acc_list hist) |}]> (disk w).
Proof.
  eexists _, _, _. split.
  - cbv [save_checkpoint bind call_value self_attr torch_save]. reflexivity.
  - split; reflexivity.
Qed.

(** With [epoch_num <= 0] the loop body is never entered. *)
Lemma fit_without_epochs (epoch_num pretrain start_epoch : Z) (w w0 : World) :
  epoch_num <= 0 ->
  resume pretrain w = (Return start_epoch, w0) ->
  fit extra epoch_num pretrain w
  = save_checkpoint epoch_num pretrain empty_history w0.
Proof.
  intros He Hres. unfold fit.
  erewrite bind_return by exact Hres.
  erewrite bind_return by (by apply epoch_loop_skipped).
  reflexivity.
Qed.

(** A resume that goes through, lines 116-124. *)
Lemma resume_run (pretrain : Z) (w : World) (ck : Checkpoint)
      (ms os : Blob) (es : list Z) (ts accs : list float)
      (start_epoch : Z) (pre_loss pre_acc : float) :
  pretrain <> 0 ->
  disk w !! checkpoint_path (model_path (self_ w)) pretrain
  = Some (Pickle ck) ->
  ck_model_state_dict ck = Some ms ->
  ck_optimizer_state_dict ck = Some os ->
  ck_epoch ck = Some es -> last es = Some start_epoch ->
  ck_train_loss ck = Some ts -> last ts = Some pre_loss ->
  ck_dev_acc ck = Some accs -> last accs = Some pre_acc ->
  resume pretrain w
  = (Return start_epoch,
     snd (print (LogResume pretrain start_epoch pre_loss)
            (record_call (OptimizerLoadStateDict os)
               (record_call (ModelLoadStateDict ms) w)))).
Proof.
  intros Hp Hfile Hms Hos Hes Hle Hts Hlt Haccs Hla.
  apply Z.eqb_neq in Hp.
  unfold resume, bind, self_attr, torch_load, last_item.
  rewrite Hp, Hfile, Hms; simpl. rewrite Hos; simpl. rewrite Hes; simpl.
  rewrite Hle, Hts; simpl. rewrite Hlt, Haccs; simpl. by rewrite Hla.
Qed.

(** A stored dict whose epoch sequence is empty: line 120 raises, after both
    state dicts have been restored. *)
Lemma resume_empty_epochs_any (names : list string) (epoch_num pretrain : Z)
      (w : World) (ck : Checkpoint) (ms os : Blob) :
  pretrain <> 0 ->
  disk w !! checkpoint_path (model_path (self_ w)) pretrain
  = Some (Pickle ck) ->
  ck_model_state_dict ck = Some ms ->
  ck_optimizer_state_dict ck = Some os ->
  ck_epoch ck = Some [] ->
  fit names epoch_num pretrain w
  = (Raise IndexError,
     record_call (OptimizerLoadStateDict os)
       (record_call (ModelLoadStateDict ms) w)).
Proof.
  intros Hp Hfile Hms Hos Hes. apply Z.eqb_neq in Hp.
  unfold fit, resume, bind, self_attr, torch_load, last_item.
  rewrite Hp, Hfile, Hms; simpl. rewrite Hos; simpl. by rewrite Hes.
Qed.

(** X1.  Whatever names resolve and however it ends, a call
    [fit(epoch_num, pretrain)] leaves the trainer's attributes as they were
    and changes no file other than [checkpoint_<pretrain + epoch_num>.pth]
    of the trainer's directory. *)
Theorem fit_touches_one_file (w : World) (epoch_num pretrain : Z)
        (path : string) :
  path <> checkpoint_path (model_path (self_ w)) (pretrain + epoch_num) ->
  self_ (snd (fit extra epoch_num pretrain w)) = self_ w
  /\ disk (snd (fit extra epoch_num pretrain w)) !! path = disk w !! path.
Proof.
  intros Hpath. split; [apply fit_preserves_self|].
  unfold fit, bind.
  pose proof (resume_preserves_disk pretrain w) as Hd1.
  pose proof (resume_preserves_self pretrain w) as Hs1.
  destruct (resume pretrain w) as [[start_epoch|e] w1]; cbn [fst snd] in *;
    [|by rewrite Hd1].
  pose proof (preserves_for_each disk (epoch_body extra start_epoch)
                (range 0 epoch_num)
                (epoch_body_preserves_disk extra start_epoch)
                empty_history w1) as Hd2.
  pose proof (preserves_for_each self_ (epoch_body extra start_epoch)
                (range 0 epoch_num)
                (epoch_body_preserves_self start_epoch)
                empty_history w1) as Hs2.
  destruct (for_each (range 0 epoch_num) (epoch_body extra start_epoch)
                     empty_history w1) as [[hist|e] w2]; cbn [fst snd] in *;
    [|by rewrite Hd2, Hd1].
  destruct (save_checkpoint_writes epoch_num pretrain hist w2)
    as (w' & ms & os & Hrun & _ & Hd).
  rewrite Hrun. cbn [fst snd]. rewrite Hd, Hs2, Hs1.
  rewrite lookup_insert_ne by congruence.
  by rewrite Hd2, Hd1.
Qed.

(** X2.  When the stored dict has ['model_state_dict'] but lacks
    ['optimizer_state_dict'], [fit] raises [KeyError] at line 119 with the
    model already overwritten by the stored state: the restore of line 118
    is not undone, and nothing else has happened. *)
Theorem failed_resume_keeps_restored_model
        (w : World) (epoch_num pretrain : Z) (ck : Checkpoint) (ms : Blob) :
  pretrain <> 0 ->
  disk w !! checkpoint_path (model_path (self_ w)) pretrain
  = Some (Pickle ck) ->
  ck_model_state_dict ck = Some ms ->
  ck_optimizer_state_dict ck = None ->
  fit extra epoch_num pretrain w
  = (Raise (KeyError "optimizer_state_dict"),
     record_call (ModelLoadStateDict ms) w).
Proof.
  intros Hp Hfile Hms Hos. apply Z.eqb_neq in Hp.
  unfold fit, resume, bind, self_attr, torch_load.
  rewrite Hp, Hfile, Hms; simpl. by rewrite Hos.
Qed.


(** X4.  [fit(0, pretrain)] cannot be repeated: once it has returned, every
    later [fit(_, pretrain)] raises [IndexError] at line 120, because the
    file it resumes from now holds an empty epoch sequence. *)
Theorem emptied_checkpoint_cannot_be_resumed
        (extra' : list string) (w : World) (epoch_num pretrain : Z)
        (ck : Checkpoint) (ms os : Blob) (es : list Z)
        (ts accs : list float) :
  0 < pretrain ->
  disk w !! checkpoint_path (model_path (self_ w)) pretrain
  = Some (Pickle ck) ->
  ck_model_state_dict ck = Some ms ->
  ck_optimizer_state_dict ck = Some os ->
  ck_epoch ck = Some es -> es <> [] ->
  ck_train_loss ck = Some ts -> ts <> [] ->
  ck_dev_acc ck = Some accs -> accs <> [] ->
  fst (fit extra 0 pretrain w) = Return tt
  /\ fst (fit extra' epoch_num pretrain (snd (fit extra 0 pretrain w)))
     = Raise IndexError.
Proof.
  intros Hp Hfile Hms Hos Hes Hes' Hts Hts' Haccs Haccs'.
  destruct (last es) as [e|] eqn:Hle; [|by apply last_None in Hle].
  destruct (last ts) as [t|] eqn:Hlt; [|by apply last_None in Hlt].
  destruct (last accs) as [a|] eqn:Hla; [|by apply last_None in Hla].
  assert (Hnz : pretrain <> 0) by lia.
  pose proof (resume_run pretrain w ck ms os es ts accs e t a
                Hnz Hfile Hms Hos Hes Hle Hts Hlt Haccs Hla) as Hres.
  rewrite (fit_without_epochs 0 pretrain e w _ ltac:(lia) Hres).
  match goal with
  | |- context [save_checkpoint 0 pretrain empty_history ?w0] =>
      destruct (save_checkpoint_writes 0 pretrain empty_history w0)
        as (w' & ms' & os' & Hrun & Hs & Hd)
  end.
  rewrite Hrun. split; [done|]. cbn [fst snd] in *.
  assert (Hempty : range (pretrain + 1) (pretrain + 0 + 1) = [])
    by (unfold range; apply seqZ_nil; lia).
  rewrite Hempty, Z.add_0_r in Hd.
  simpl in Hs, Hd.
  assert (Hfile' :
            disk w' !! checkpoint_path (model_path (self_ w')) pretrain
            = Some (Pickle {| ck_model_state_dict := Some ms';
                              ck_optimizer_state_dict := Some os';
                              ck_epoch := Some [];
                              ck_train_loss := Some [];
                              ck_dev_loss := Some [];
                              ck_dev_acc := Some [] |}))
    by (rewrite Hs, Hd; apply lookup_insert_eq).
  by rewrite (resume_empty_epochs_any extra' epoch_num pretrain w' _ ms' os'
                Hnz Hfile' eq_refl eq_refl eq_refl).
Qed.

End FitEdges.

(** ** The validation generator, and the epoch loop on its edges *)

Section Passes.

Context `{Collaborators}.

Variable extra : list string.

Lemma count_pass_each (q : Call -> bool) (calls : Batch -> list Call)
      (k : nat) (batches : list Batch) :
  (forall b, count q (calls b) = k) ->
  count q (concat (map calls batches)) = (k * length batches)%nat.
Proof.
  intros Hcalls. induction batches as [|b batches IH]; simpl.
  - unfold count. simpl. lia.
  - rewrite count_app, Hcalls, IH. lia.
Qed.

(** X5.  Iterating [dev_model()] never zeroes gradients, scales a loss,
    backpropagates, steps the optimizer, updates the scaler or steps the
    scheduler, whatever names resolve and however the iteration ends: the
    generator validates and leaves every update to its caller. *)
Theorem dev_model_never_updates (w : World) :
  count is_update (trace (snd (drain (dev_model extra) w)))
  = count is_update (trace w).
Proof.
  assert (Hframe : preserves (fun w => count is_update (trace w))
                             (drain (dev_model extra))).
  { unfold drain, for_in, dev_model. simpl. frame. }
  apply Hframe.
Qed.

(** X6.  Once [self] resolves, one pass of [dev_model()] yields one
    (loss, accuracy) pair per validation batch and runs the model's forward
    pass twice per batch (line 80 and again line 84). *)
Theorem dev_model_runs_forward_twice (w : World) :
  resolves extra "self" = true ->
  exists yields w',
    drain (dev_model extra) w = (Return yields, w')
    /\ length yields = length (dev_dataloader (self_ w))
    /\ count is_forward (trace w')
       = (count is_forward (trace w)
          + 2 * length (dev_dataloader (self_ w)))%nat.
Proof.
  intros Hself.
  destruct (drain_dev_model extra w Hself)
    as (yields & w' & Hrun & Hlen & Htr & _ & _).
  exists yields, w'. split; [done|]. split; [done|].
  rewrite Htr, count_app.
  by rewrite (count_pass_each is_forward dev_batch_calls 2).
Qed.

Section EpochEdges.

Hypothesis self_bound : resolves extra "self" = true.
Hypothesis train_model_bound : resolves extra "train_model" = true.
Hypothesis dev_model_bound : resolves extra "dev_model" = true.
Hypothesis scheduler_bound : resolves extra "scheduler" = true.

(** Line 158 with no training batch. *)
Lemma per_sample_empty_loader (total : float) (loader : Trainer -> list Batch)
      (w : World) :
  loader (self_ w) = [] ->
  per_sample total loader w = (Raise ZeroDivisionError, w).
Proof.
  intros Hempty. unfold per_sample, bind, self_attr.
  rewrite Hempty. reflexivity.
Qed.

(** X7.  Once the names resolve, a trainer whose training loader is empty
    makes [fit] raise [ZeroDivisionError] at line 158 in its first epoch:
    the validation pass has run and the scheduler has been stepped once by
    then, and no checkpoint is written. *)
Theorem fit_empty_training_loader_divides_by_zero
        (w w0 : World) (epoch_num pretrain start_epoch : Z) :
  train_dataloader (self_ w) = [] ->
  1 <= epoch_num ->
  resume pretrain w = (Return start_epoch, w0) ->
  exists w',
    fit extra epoch_num pretrain w = (Raise ZeroDivisionError, w')
    /\ disk w' = disk w
    /\ count is_scheduler_step (trace w')
       = S (count is_scheduler_step (trace w)).
Proof.
  intros Hempty He Hres.
  pose proof (resume_preserves_self pretrain w) as Hs0.
  pose proof (resume_preserves_disk pretrain w) as Hd0.
  pose proof (resume_counts is_scheduler_step pretrain
                (fun _ => eq_refl) (fun _ => eq_refl) (fun _ => eq_refl) w)
    as Hc0.
  rewrite Hres in Hs0, Hd0, Hc0. cbn [fst snd] in *.
  destruct (train_phase_sums extra self_bound train_model_bound w0)
    as (losses & w1 & _ & Hrun1 & Htr1 & Hs1 & Hd1).
  destruct (dev_phase_steps_scheduler extra self_bound dev_model_bound
              scheduler_bound w1)
    as (yields & w2 & _ & Hrun2 & Htr2 & Hs2 & Hd2).
  eexists. split.
  - unfold fit.
    erewrite bind_return by exact Hres.
    unfold range. rewrite seqZ_cons by lia. cbn [for_each].
    erewrite bind_raise; [reflexivity|].
    erewrite bind_raise; [reflexivity|].
    unfold epoch_body.
    erewrite bind_return by exact Hrun1.
    erewrite bind_return by exact Hrun2.
    cbv beta iota. unfold record_epoch.
    erewrite bind_raise; [reflexivity|].
    apply per_sample_empty_loader. simpl. by rewrite Hs2, Hs1, Hs0.
  - simpl. rewrite Hd2, Hd1, Hd0. split; [done|].
    rewrite count_snoc, Htr2, Htr1. simpl.
    repeat rewrite ?count_app, ?count_cons.
    rewrite !count_pass by (intros; reflexivity). simpl. lia.
Qed.

End EpochEdges.

End Passes.

(** ** [plot_loss_acc]: the scan, the sorted rows, the axis *)

Section Plot.

Context `{Collaborators}.

(** The scan prints and nothing else. *)
Lemma scan_file_counts (q : Call -> bool) file_path acc :
  (forall line, q (Print line) = false) ->
  preserves (fun w => count q (trace w)) (scan_file file_path acc).
Proof.
  intros Hprint. unfold scan_file, print.
  repeat first
    [ apply preserves_emit; intros w; simpl; apply count_blind; apply Hprint
    | frame ].
Qed.

(** X9.  Once [os] resolves, a directory from which no record can be read
    (no matching file, or none that is readable, or only empty histories)
    makes [plot_loss_acc] raise [ValueError] at line 229, before any chart
    is drawn. *)
Theorem plot_without_records_raises
        (extra : list string) (w : World) (path : string) :
  resolves extra "os" = true ->
  merged_rows
    (merge_readable (disk w)
       (glob (os_path_join path "checkpoint_*.pth") (disk w))) = [] ->
  exists w',
    plot_loss_acc extra path w = (Raise ValueError, w')
    /\ count is_chart (trace w') = count is_chart (trace w).
Proof.
  intros Hos Hrows.
  set (w1 := snd (set_model_path path w)).
  set (pth_files := glob (os_path_join path "checkpoint_*.pth") (disk w)) in *.
  destruct (scan_merges_readable pth_files empty_merged w1)
    as (w2 & Hscan & Hd).
  pose proof (preserves_for_each (fun w => count is_chart (trace w))
                scan_file pth_files
                (fun x s => scan_file_counts is_chart x s (fun _ => eq_refl))
                empty_merged w1) as Hcount.
  rewrite Hscan in Hcount. cbn [fst snd] in Hcount.
  exists w2. split; [|exact Hcount].
  unfold plot_loss_acc.
  erewrite bind_return by reflexivity.
  unfold scan_and_plot.
  erewrite bind_return by (unfold global; rewrite Hos; reflexivity).
  erewrite bind_return by reflexivity.
  erewrite bind_return by reflexivity.
  erewrite bind_return by exact Hscan.
  match goal with
  | |- context [merged_rows ?m] =>
      change (merged_rows m)
        with (merged_rows (merge_readable (disk w) pth_files))
  end.
  rewrite Hrows. reflexivity.
Qed.

(** X10.  Running the scan a second time gives the same merged lists: the
    scan changes no file, and what it merges depends on the files only. *)
Theorem scan_is_repeatable
        (pth_files : list string) (acc acc' : Merged) (w : World) :
  fst (for_each pth_files scan_file acc
                (snd (for_each pth_files scan_file acc' w)))
  = fst (for_each pth_files scan_file acc w).
Proof.
  destruct (scan_merges_readable pth_files acc' w) as (w1 & Hfirst & Hd1).
  rewrite Hfirst. cbn [snd].
  destruct (scan_merges_readable pth_files acc w1) as (w2 & Hsecond & _).
  destruct (scan_merges_readable pth_files acc w) as (w3 & Hdirect & _).
  by rewrite Hsecond, Hdirect, Hd1.
Qed.

(** X11.  A stored dict without ['dev_loss'] is accepted by the resume of
    [fit], which never reads that key, but is rejected by the scan of
    [plot_loss_acc]: the scan reports [KeyError] on ['dev_loss'] and merges
    none of the file's records. *)
Theorem dev_loss_needed_by_scan_not_by_resume
        (w : World) (pretrain : Z) (ck : Checkpoint) (acc : Merged)
        (ms os : Blob) (es : list Z) (ts accs : list float)
        (start_epoch : Z) (pre_loss pre_acc : float) :
  pretrain <> 0 ->
  disk w !! checkpoint_path (model_path (self_ w)) pretrain
  = Some (Pickle ck) ->
  ck_model_state_dict ck = Some ms ->
  ck_optimizer_state_dict ck = Some os ->
  ck_epoch ck = Some es -> last es = Some start_epoch ->
  ck_train_loss ck = Some ts -> last ts = Some pre_loss ->
  ck_dev_acc ck = Some accs -> last accs = Some pre_acc ->
  ck_dev_loss ck = None ->
  fst (resume pretrain w) = Return start_epoch
  /\ scan_file (checkpoint_path (model_path (self_ w)) pretrain) acc w
     = (Return acc,
        snd (print (LogReadError
                      (checkpoint_path (model_path (self_ w)) pretrain)
                      (KeyError "dev_loss"))
               (snd (print (LogPath
                              (checkpoint_path (model_path (self_ w))
                                               pretrain)) w)))).
Proof.
  intros Hp Hfile Hms Hos Hes Hle Hts Hlt Haccs Hla Hdl. split.
  - by rewrite (resume_run pretrain w ck ms os es ts accs start_epoch
                  pre_loss pre_acc Hp Hfile Hms Hos Hes Hle Hts Hlt Haccs Hla).
  - unfold scan_file, try_except, bind, print, emit, torch_load, getitem.
    simpl. rewrite Hfile, Hes. simpl. rewrite Hts. simpl. by rewrite Hdl.
Qed.

End Plot.

(** ** The rows of the chart *)

Section Rows.

Lemma insert_row_perm (x : Row) (l : list Row) :
  Permutation (insert_row x l) (x :: l).
Proof.
  induction l as [|y l IH]; simpl; [done|].
  destruct (row_epoch x <=? row_epoch y); [done|].
  rewrite IH. apply perm_swap.
Qed.

Lemma sorted_perm (rows : list Row) : Permutation (sorted rows) rows.
Proof.
  induction rows as [|x rows IH]; simpl; [done|].
  by rewrite insert_row_perm, IH.
Qed.

Lemma insert_row_hd (a x : Row) (l : list Row) :
  HdRel Z.le (row_epoch a) (map row_epoch l) ->
  row_epoch a <= row_epoch x ->
  HdRel Z.le (row_epoch a) (map row_epoch (insert_row x l)).
Proof.
  intros Hhd Hax. destruct l as [|y l]; simpl; [by constructor|].
  destruct (row_epoch x <=? row_epoch y); simpl; constructor; [done|].
  by inversion Hhd.
Qed.

Lemma insert_row_ascending (x : Row) (l : list Row) :
  Sorted Z.le (map row_epoch l) ->
  Sorted Z.le (map row_epoch (insert_row x l)).
Proof.
  induction l as [|y l IH]; simpl; intros Hs.
  - by repeat constructor.
  - destruct (Z.leb_spec (row_epoch x) (row_epoch y)) as [Hle|Hgt]; simpl.
    + constructor; [done|by constructor].
    + inversion Hs; subst. constructor; [by apply IH|].
      apply insert_row_hd; [done|lia].
Qed.

Lemma insert_row_stable (k : Z) (x : Row) (l : list Row) :
  List.filter (fun r => row_epoch r =? k) (insert_row x l)
  = List.filter (fun r => row_epoch r =? k) (x :: l).
Proof.
  induction l as [|y l IH]; [done|]. simpl in *.
  destruct (Z.leb_spec (row_epoch x) (row_epoch y)) as [Hle|Hgt]; [done|].
  simpl. rewrite IH.
  destruct (Z.eqb_spec (row_epoch x) k) as [Hx|Hx];
    destruct (Z.eqb_spec (row_epoch y) k) as [Hy|Hy]; try done; lia.
Qed.

Lemma zip4_length (es : list Z) :
  forall ts ds accs : list float,
    length (zip4 es ts ds accs)
    = Nat.min (Nat.min (length es) (length ts))
              (Nat.min (length ds) (length accs)).
Proof.
  induction es as [|e es IH]; intros [|t ts] [|d ds] [|a accs]; simpl;
    try lia.
  rewrite IH. lia.
Qed.

(** X12.  The rows handed to the chart (line 228) are the zipped merged
    records rearranged: none is dropped and none de-duplicated, they are in
    ascending order of epoch, and records of the same epoch keep the order
    in which the files were read. *)
Theorem merged_rows_sorted_stable (m : Merged) :
  let rows := zip4 (all_epochs m) (all_train_losses m) (all_dev_losses m)
                   (all_dev_accuracies m) in
  Permutation (merged_rows m) rows
  /\ Sorted Z.le (map row_epoch (merged_rows m))
  /\ forall k,
       List.filter (fun r => row_epoch r =? k) (merged_rows m)
       = List.filter (fun r => row_epoch r =? k) rows.
Proof.
  cbv zeta. unfold merged_rows.
  generalize (zip4 (all_epochs m) (all_train_losses m) (all_dev_losses m)
                   (all_dev_accuracies m)) as rows.
  intros rows. split; [apply sorted_perm|]. split.
  - induction rows as [|x rows IH]; simpl; [constructor|].
    by apply insert_row_ascending.
  - intros k. induction rows as [|x rows IH]; [done|].
    simpl sorted. rewrite insert_row_stable. simpl. by rewrite IH.
Qed.

(** X13.  [zip] stops at the shortest of the four merged lists: the chart
    has as many points as the shortest list has entries, so records beyond
    that length are silently left out. *)
Theorem merged_rows_length (m : Merged) :
  length (merged_rows m)
  = Nat.min (Nat.min (length (all_epochs m)) (length (all_train_losses m)))
            (Nat.min (length (all_dev_losses m))
                     (length (all_dev_accuracies m))).
Proof.
  unfold merged_rows.
  rewrite (Permutation_length (sorted_perm _)). apply zip4_length.
Qed.

End Rows.

(** ** The accuracy axis *)

Section Axis.

Lemma ltb_leb (x y : float) : (x <? y)%float = true -> (x <=? y)%float = true.
Proof.
  rewrite ltb_spec, leb_spec. unfold SFltb, SFleb.
  by destruct (SFcompare (Prim2SF x) (Prim2SF y)) as [[| |]|].
Qed.

Lemma py_max_lower (a b : float) :
  (a <=? a)%float = true -> (a <=? py_max a b)%float = true.
Proof.
  intros Ha. unfold py_max.
  destruct (a <? b)%float eqn:Hab; [by apply ltb_leb|done].
Qed.

Lemma py_min_upper (a b : float) :
  (a <=? a)%float = true -> (py_min a b <=? a)%float = true.
Proof.
  intros Ha. unfold py_min.
  destruct (b <? a)%float eqn:Hba; [by apply ltb_leb|done].
Qed.

(** X14.  The limits that lines 252-255 hand to [set_ylim] are clamped: the
    lower one is at least 0 and the upper one at most 100, for every
    sequence of accuracies, NaN and infinities included. *)
Theorem accuracy_ylim_clamped (first : float) (rest : list float) :
  (0 <=? fst (accuracy_ylim first rest))%float = true
  /\ (snd (accuracy_ylim first rest) <=? 100)%float = true.
Proof.
  unfold accuracy_ylim. cbv zeta. cbn [fst snd]. split.
  - by apply py_max_lower.
  - by apply py_min_upper.
Qed.

End Axis.

(** ** File names *)

Section Names.

Lemma length_append (a b : string) :
  String.length (a +:+ b) = (String.length a + String.length b)%nat.
Proof. induction a as [|c a IH]; simpl; [done|]. by rewrite IH. Qed.

Lemma append_inv_head (a x y : string) : a +:+ x = a +:+ y -> x = y.
Proof.
  induction a as [|c a IH]; simpl; [done|]. intros [= Heq]. by apply IH.
Qed.

Lemma append_inv_tail (s : string) :
  forall x y : string, x +:+ s = y +:+ s -> x = y.
Proof.
  induction x as [|c x IH]; intros [|d y] Heq; simpl in *.
  - done.
  - apply (f_equal String.length) in Heq.
    rewrite !length_append in Heq. simpl in Heq. lia.
  - apply (f_equal String.length) in Heq.
    rewrite !length_append in Heq. simpl in Heq. lia.
  - injection Heq as -> Heq. f_equal. by apply IH.
Qed.

Lemma str_inj (n m : Z) : str n = str m -> n = m.
Proof.
  unfold str. intros Heq. apply DecimalZ.to_int_inj.
  assert (Hparse : forall z,
             NilZero.int_of_string (NilZero.string_of_int (Z.to_int z))
             = Some (Z.to_int z)).
  { intros z. apply NilZero.isi; destruct z as [|p|p]; simpl; try done.
    - intros [= Hnil]. by apply (Unsigned.to_uint_nonnil p).
    - intros [= Hnil]. by apply (Unsigned.to_uint_nonnil p). }
  apply (f_equal NilZero.int_of_string) in Heq.
  rewrite !Hparse in Heq. congruence.
Qed.

(** X15.  Within one directory, two different checkpoint numbers never
    share a file name: [fit] overwrites an existing checkpoint only when
    [pretrain + epoch_num] is the number that checkpoint was saved under. *)
Theorem checkpoint_path_injective (dir : string) (n m : Z) :
  checkpoint_path dir n = checkpoint_path dir m -> n = m.
Proof.
  unfold checkpoint_path. intros Heq.
  apply append_inv_head, append_inv_head, append_inv_tail in Heq.
  by apply str_inj.
Qed.

End Names.

(** ** Runs of the further properties *)

Section MoreRuns.

#[local] Existing Instance Scenario.store.
#[local] Existing Instance Scenario.collaborators.

(** X1 at [fit(0, 3)]: checkpoint 9 of the directory is not touched. *)
Lemma fit_touches_one_file_witness :
  "./model/checkpoint/checkpoint_9.pth"
  <> checkpoint_path (model_path (self_ Scenario.resumable)) (3 + 0)
  /\ self_ (snd (fit [] 0 3 Scenario.resumable)) = self_ Scenario.resumable
  /\ disk (snd (fit [] 0 3 Scenario.resumable))
       !! "./model/checkpoint/checkpoint_9.pth"
     = disk Scenario.resumable !! "./model/checkpoint/checkpoint_9.pth".
Proof.
  assert (Hpath : "./model/checkpoint/checkpoint_9.pth"
                  <> checkpoint_path (model_path (self_ Scenario.resumable))
                                     (3 + 0))
    by (vm_compute; congruence).
  split; [exact Hpath|].
  exact (fit_touches_one_file [] Scenario.resumable 0 3 _ Hpath).
Defined.

(** X2 at a file that holds the model state but no optimizer state. *)
Lemma failed_resume_keeps_restored_model_witness :
  3 <> 0
  /\ fit [] 1 3 (Scenario.holding Scenario.checkpoint_3_model_only)
     = (Raise (KeyError "optimizer_state_dict"),
        record_call (ModelLoadStateDict 6)
                    (Scenario.holding Scenario.checkpoint_3_model_only)).
Proof.
  split; [lia|].
  apply (failed_resume_keeps_restored_model
           [] (Scenario.holding Scenario.checkpoint_3_model_only) 1 3
           Scenario.checkpoint_3_model_only 6);
    first [ lia | vm_compute; reflexivity ].
Defined.


(** X4 at [fit(0, 3)] followed by [fit(2, 3)]. *)
Lemma emptied_checkpoint_cannot_be_resumed_witness :
  0 < 3
  /\ fst (fit [] 0 3 Scenario.resumable) = Return tt
  /\ fst (fit repaired 2 3 (snd (fit [] 0 3 Scenario.resumable)))
     = Raise IndexError.
Proof.
  split; [lia|].
  apply (emptied_checkpoint_cannot_be_resumed
           [] repaired Scenario.resumable 2 3 Scenario.checkpoint_3
           6 6 [1; 2; 3] [1024; 512; 256]%float [0.25; 0.5; 0.75]%float);
    first [ lia | discriminate | vm_compute; reflexivity ].
Defined.

(** X6 on the one validation batch of the concrete run. *)
Lemma dev_model_runs_forward_twice_witness :
  resolves repaired "self" = true
  /\ exists yields w',
       drain (dev_model repaired) Scenario.fresh = (Return yields, w')
       /\ length yields = length (dev_dataloader (self_ Scenario.fresh))
       /\ count is_forward (trace w')
          = (count is_forward (trace Scenario.fresh)
             + 2 * length (dev_dataloader (self_ Scenario.fresh)))%nat.
Proof.
  split; [reflexivity|].
  apply (dev_model_runs_forward_twice repaired Scenario.fresh). reflexivity.
Defined.

(** X7 at [fit(1)] on a trainer without training batches. *)
Lemma fit_empty_training_loader_divides_by_zero_witness :
  train_dataloader (self_ Scenario.no_training_data) = []
  /\ 1 <= 1
  /\ exists w',
       fit repaired 1 0 Scenario.no_training_data
       = (Raise ZeroDivisionError, w')
       /\ disk w' = disk Scenario.no_training_data
       /\ count is_scheduler_step (trace w')
          = S (count is_scheduler_step (trace Scenario.no_training_data)).
Proof.
  split; [reflexivity|]. split; [lia|].
  apply (fit_empty_training_loader_divides_by_zero
           repaired eq_refl eq_refl eq_refl eq_refl
           Scenario.no_training_data
           (snd (print LogFresh Scenario.no_training_data)) 1 0 0);
    first [ lia | reflexivity ].
Defined.

(** X9 on an empty directory. *)
Lemma plot_without_records_raises_witness :
  resolves repaired "os" = true
  /\ exists w',
       plot_loss_acc repaired "./model/checkpoint/" Scenario.fresh
       = (Raise ValueError, w')
       /\ count is_chart (trace w') = count is_chart (trace Scenario.fresh).
Proof.
  split; [reflexivity|].
  apply (plot_without_records_raises repaired Scenario.fresh
           "./model/checkpoint/");
    vm_compute; reflexivity.
Defined.

(** X11 at checkpoint 3 stored without ['dev_loss']. *)
Lemma dev_loss_needed_by_scan_not_by_resume_witness :
  3 <> 0
  /\ fst (resume 3 (Scenario.holding Scenario.checkpoint_3_without_dev_loss))
     = Return 3
  /\ fst (scan_file "./model/checkpoint/checkpoint_3.pth" empty_merged
            (Scenario.holding Scenario.checkpoint_3_without_dev_loss))
     = Return empty_merged.
Proof.
  split; [lia|].
  destruct (dev_loss_needed_by_scan_not_by_resume
              (Scenario.holding Scenario.checkpoint_3_without_dev_loss) 3
              Scenario.checkpoint_3_without_dev_loss empty_merged
              6 6 [1; 2; 3] [1024; 512; 256]%float [0.25; 0.5; 0.75]%float
              3 256%float 0.75%float
              ltac:(lia) eq_refl eq_refl eq_refl eq_refl eq_refl eq_refl
              eq_refl eq_refl eq_refl eq_refl) as [Hresume Hscan].
  split; [exact Hresume|].
  change (checkpoint_path
            (model_path
               (self_ (Scenario.holding
                         Scenario.checkpoint_3_without_dev_loss))) 3)
    with "./model/checkpoint/checkpoint_3.pth" in Hscan.
  by rewrite Hscan.
Defined.

(** X15 at checkpoint 3. *)
Lemma checkpoint_path_injective_witness :
  checkpoint_path "./model/checkpoint/" 3
  = checkpoint_path "./model/checkpoint/" (1 + 2)
  /\ 3 = 1 + 2.
Proof.
  split; [reflexivity|].
  apply (checkpoint_path_injective "./model/checkpoint/" 3 (1 + 2)).
  reflexivity.
Defined.

End MoreRuns.

(** ** Signs of binary64 results *)

Section FloatSigns.

Lemma shr_1_nonneg (mrs : shr_record) :
  0 <= shr_m mrs -> 0 <= shr_m (shr_1 mrs).
Proof.
  destruct mrs as [m r s]. destruct m as [|p|p]; simpl; try lia;
    destruct p; simpl; lia.
Qed.

Lemma iter_shr_1_nonneg (p : positive) :
  forall mrs, 0 <= shr_m mrs -> 0 <= shr_m (SpecFloat.iter_pos shr_1 p mrs).
Proof.
  induction p as [p IH|p IH|]; simpl; intros mrs Hm.
  - apply IH, IH. by apply shr_1_nonneg.
  - by apply IH, IH.
  - by apply shr_1_nonneg.
Qed.

Lemma shr_fexp_nonneg (m e : Z) (l : location) :
  0 <= m -> 0 <= shr_m (fst (shr_fexp prec emax m e l)).
Proof.
  intros Hm. unfold shr_fexp, shr.
  assert (Hrec : 0 <= shr_m (shr_record_of_loc m l))
    by (destruct l as [|[]]; exact Hm).
  destruct (fexp prec emax (Zdigits2 m + e) - e); simpl; auto.
  by apply iter_shr_1_nonneg.
Qed.

Lemma round_nearest_even_nonneg (m : Z) (l : location) :
  0 <= m -> 0 <= round_nearest_even m l.
Proof.
  intros Hm. destruct l as [|[]]; simpl; try lia. destruct (Z.even m); lia.
Qed.

(** Rounding a non-negative mantissa keeps the sign and never gives NaN. *)
Lemma binary_round_aux_signed (s : bool) (m e : Z) (l : location) :
  0 <= m -> SF_signed s (binary_round_aux prec emax s m e l) = true.
Proof.
  intros Hm. unfold binary_round_aux.
  pose proof (shr_fexp_nonneg m e l Hm) as H1.
  destruct (shr_fexp prec emax m e l) as [mrs' e']. simpl in H1.
  pose proof (shr_fexp_nonneg _ e' loc_Exact
                (round_nearest_even_nonneg
                   (shr_m mrs') (loc_of_shr_record mrs') H1)) as H2.
  destruct (shr_fexp prec emax
              (round_nearest_even (shr_m mrs') (loc_of_shr_record mrs'))
              e' loc_Exact) as [mrs'' e''].
  simpl in H2. destruct (shr_m mrs'') as [|q|q]; simpl.
  - apply eqb_reflx.
  - destruct (e'' <=? _); simpl; apply eqb_reflx.
  - lia.
Qed.

Lemma signed_nonneg (x : spec_float) :
  SF_signed false x = true -> SF_nonneg x = true.
Proof. by destruct x as [[]|[]| |[] m e]. Qed.

Lemma SFadd_nonneg (x y : spec_float) :
  SF_nonneg x = true -> SF_nonneg y = true ->
  SF_nonneg (SFadd prec emax x y) = true.
Proof.
  destruct x as [sx|sx| |sx mx ex], y as [sy|sy| |sy my ey];
    try destruct sx; try destruct sy; simpl; try done.
  intros _ _. apply signed_nonneg.
  unfold SFadd. cbn [cond_Zopp]. cbn [Z.add].
  unfold binary_normalize, binary_round.
  destruct (shl_align _ _ _) as [mz ez]. by apply binary_round_aux_signed.
Qed.

Lemma SFmul_nonneg (x : spec_float) (my : positive) (ey : Z) :
  SF_nonneg x = true ->
  SF_nonneg (SFmul prec emax x (S754_finite false my ey)) = true.
Proof.
  destruct x as [sx|sx| |sx mx ex]; try destruct sx; simpl; try done.
  intros _. apply signed_nonneg. by apply binary_round_aux_signed.
Qed.

Lemma SFdiv_nonneg (x : spec_float) (my : positive) (ey : Z) :
  SF_nonneg x = true ->
  SF_nonneg (SFdiv prec emax x (S754_finite false my ey)) = true.
Proof.
  destruct x as [sx|sx| |sx mx ex]; try destruct sx; simpl; try done.
  intros _. apply signed_nonneg.
  unfold SFdiv_core_binary.
  set (e' := Z.min _ _). set (s := ex - ey - e').
  set (m' := match s with
             | Z0 => Z.pos mx
             | Z.pos _ => Z.shiftl (Z.pos mx) s
             | Z.neg _ => 0
             end).
  assert (Hm' : 0 <= m').
  { unfold m'. destruct s; try lia. apply Z.shiftl_nonneg. lia. }
  pose proof (Z.div_pos m' (Z.pos my) Hm' ltac:(lia)) as Hq.
  unfold Z.div in Hq.
  destruct (Z.div_eucl m' (Z.pos my)) as [q r]. simpl in Hq.
  by apply binary_round_aux_signed.
Qed.

Lemma nonneg_spec (x : float) : nonneg x = SF_nonneg (Prim2SF x).
Proof.
  unfold nonneg. rewrite leb_spec. change (Prim2SF 0) with (S754_zero false).
  unfold SFleb, SFcompare. by destruct (Prim2SF x) as [[]|[]| |[] m e].
Qed.

Lemma add_nonneg (a b : float) :
  nonneg a = true -> nonneg b = true -> nonneg (a + b)%float = true.
Proof. rewrite !nonneg_spec, add_spec. apply SFadd_nonneg. Qed.

(** The loss of a batch is the negation of a log-likelihood that is at
    most 0. *)
Lemma opp_nonneg (a : float) :
  (a <=? 0)%float = true -> nonneg (- a)%float = true.
Proof.
  rewrite nonneg_spec, opp_spec, leb_spec.
  change (Prim2SF 0) with (S754_zero false).
  unfold SFleb, SFcompare. by destruct (Prim2SF a) as [[]|[]| |[] m e].
Qed.

Lemma div_nonneg (a d : float) :
  nonneg a = true -> positive_finite d = true -> nonneg (a / d)%float = true.
Proof.
  rewrite !nonneg_spec, div_spec. unfold positive_finite.
  destruct (Prim2SF d) as [|[]| |[] m e]; try done.
  intros Ha _. by apply SFdiv_nonneg.
Qed.

Lemma mul_nonneg (a d : float) :
  nonneg a = true -> positive_finite d = true -> nonneg (a * d)%float = true.
Proof.
  rewrite !nonneg_spec, mul_spec. unfold positive_finite.
  destruct (Prim2SF d) as [|[]| |[] m e]; try done.
  intros Ha _. by apply SFmul_nonneg.
Qed.

Lemma summed_nonneg (losses : list float) :
  Forall (fun x => nonneg x = true) losses -> nonneg (summed losses) = true.
Proof.
  unfold summed.
  assert (Hgen : forall total,
             nonneg total = true ->
             Forall (fun x => nonneg x = true) losses ->
             nonneg (fold_left PrimFloat.add losses total) = true).
  { induction losses as [|x losses IH]; intros total Ht Hall; simpl; [done|].
    inversion Hall; subst. apply IH; [by apply add_nonneg|done]. }
  by apply Hgen.
Qed.

Lemma scaled_loss_nonneg (total : float) (n : nat) (size : Z) :
  nonneg total = true ->
  positive_finite (float_of_Z (Z.of_nat n)) = true ->
  positive_finite (float_of_Z size) = true ->
  nonneg (scaled_loss total n size) = true.
Proof.
  intros Ht Hn Hsize. unfold scaled_loss.
  apply mul_nonneg; [|done]. by apply div_nonneg.
Qed.

End FloatSigns.

(** ** The metrics an epoch records *)

Section Metrics.

Context `{Collaborators}.

Variable extra : list string.

Lemma positive_finite_not_infinity (x : float) :
  positive_finite x = true -> is_infinity x = false.
Proof.
  unfold positive_finite, is_infinity.
  rewrite FloatAxioms.eqb_spec, abs_spec.
  change (Prim2SF infinity) with (S754_infinity false).
  by destruct (Prim2SF x) as [|[]| |[] m e].
Qed.

Lemma positive_finite_length (n : nat) :
  positive_finite (float_of_Z (Z.of_nat n)) = true -> n <> 0%nat.
Proof. intros Hn ->. by vm_compute in Hn. Qed.

(** A trainer with a batch in each loader and a positive batch size can
    scale its losses. *)
Lemma well_sized_scalable (t : Trainer) :
  well_sized t = true -> scalable t = true.
Proof.
  unfold well_sized, scalable, finite_int.
  rewrite !andb_true_iff, !negb_true_iff, !Nat.eqb_neq.
  intros [[Ht Hd] Hsize].
  repeat split;
    auto using positive_finite_not_infinity, positive_finite_length.
Qed.

(** What the body of a pass guarantees of each value it yields, the pass
    guarantees of all of them. *)
Lemma pass_forall {A} (body : Batch -> M A) (P : A -> Prop) :
  (forall b w x w', body b w = (Return x, w') -> P x) ->
  forall batches acc w xs w',
    for_each batches
      (fun b xs => bind (body b) (fun x => ret (xs ++ [x]))) acc w
    = (Return xs, w') ->
    Forall P acc -> Forall P xs.
Proof.
  intros Hbody batches.
  induction batches as [|b batches IH]; intros acc w xs w' Hrun Hacc.
  - by injection Hrun as <- _.
  - cbn [for_each] in Hrun. unfold bind at 1 2 in Hrun.
    destruct (body b w) as [[x|e] w1] eqn:Hb; [|done].
    apply (IH _ _ _ _ Hrun).
    apply Forall_app. split; [done|].
    apply Forall_cons. split; [by apply (Hbody b w x w1)|done].
Qed.

Lemma drain_forall {A} (gen : Generator A) (P : A -> Prop) :
  (forall b w x w', gen_body gen b w = (Return x, w') -> P x) ->
  forall w xs w', drain gen w = (Return xs, w') -> Forall P xs.
Proof.
  intros Hbody w xs w'. unfold drain, for_in, bind at 1.
  destruct (gen_source gen w) as [[batches|e] w1]; [|done].
  intros Hrun. by apply (pass_forall _ P Hbody batches [] w1 xs w').
Qed.

(** Line 59: the loss a training batch yields is the negated
    log-likelihood. *)
Lemma train_yield_nonneg (b : Batch) (w : World) (x : float) (w' : World) :
  loss_contract ->
  gen_body (train_model extra) b w = (Return x, w') -> nonneg x = true.
Proof.
  intros Hloss. cbv [gen_body train_model bind call call_value ret].
  intros [= <- _]. apply opp_nonneg, Hloss.
Qed.

(** Lines 88 and 98-104: what a validation batch yields. *)
Lemma dev_yield_in_range (b : Batch) (w : World) (y : float * float)
      (w' : World) :
  loss_contract -> accuracy_contract ->
  gen_body (dev_model extra) b w = (Return y, w') ->
  nonneg (fst y) = true /\ in_unit (snd y) = true.
Proof.
  intros Hloss Hacc. cbv [gen_body dev_model bind call call_value ret].
  intros [= <- _]. split; [apply opp_nonneg, Hloss|apply Hacc].
Qed.

(** In the file as it is, no call of [fit] reports or records an epoch:
    the first one stops at line 142. *)
Lemma fit_shipped_records_no_epoch (w : World) (epoch_num pretrain : Z) :
  count is_epoch_record (trace (snd (fit [] epoch_num pretrain w)))
  = count is_epoch_record (trace w).
Proof.
  revert w.
  change (preserves (fun w => count is_epoch_record (trace w))
                    (fit [] epoch_num pretrain)).
  unfold fit. apply preserves_bind.
  - unfold resume, print.
    repeat first
      [ apply preserves_call; intros w; simpl; apply count_blind; auto
      | apply preserves_emit; intros w; simpl; apply count_blind; auto
      | frame ].
  - intros start_epoch. apply preserves_bind.
    + intros w. destruct (Z_lt_le_dec 0 epoch_num) as [Hpos|Hnon].
      * rewrite epoch_loop_shipped by lia. simpl. by apply count_blind.
      * by rewrite epoch_loop_skipped by lia.
    + intros hist. unfold save_checkpoint, torch_save.
      repeat first
        [ apply preserves_call_value; intros w; simpl; apply count_blind; auto
        | frame ].
      intros w. simpl. by apply count_blind.
Qed.

Section EpochRanges.

Hypothesis self_bound : resolves extra "self" = true.
Hypothesis train_model_bound : resolves extra "train_model" = true.
Hypothesis dev_model_bound : resolves extra "dev_model" = true.
Hypothesis scheduler_bound : resolves extra "scheduler" = true.

Hypothesis loss_in_range : loss_contract.
Hypothesis accuracy_in_range : accuracy_contract.
Hypothesis mean_in_range : mean_contract.

(** The three values that one epoch appends. *)
Lemma epoch_body_ranges (start_epoch epoch : Z) (hist hist' : History)
      (w w' : World) :
  well_sized (self_ w) = true ->
  epoch_body extra start_epoch epoch hist w = (Return hist', w') ->
  exists train_loss dev_loss dev_acc,
    train_loss_list hist' = train_loss_list hist ++ [train_loss]
    /\ dev_loss_list hist' = dev_loss_list hist ++ [dev_loss]
    /\ dev_acc_list hist' = dev_acc_list hist ++ [dev_acc]
    /\ nonneg train_loss = true
    /\ nonneg dev_loss = true
    /\ in_unit dev_acc = true
    /\ self_ w' = self_ w.
Proof.
  intros Hsized Hepoch.
  pose proof Hsized as Hsizes. unfold well_sized in Hsizes.
  rewrite !andb_true_iff in Hsizes. destruct Hsizes as [[Hnt Hnd] Hsize].
  destruct (epoch_body_resolved extra self_bound train_model_bound
              dev_model_bound scheduler_bound start_epoch epoch hist w
              (well_sized_scalable _ Hsized))
    as (losses & yields & w1 & w2 & Hd1 & Hd2 & Hrun & _ & Hs2 & _).
  cbv zeta in Hrun. rewrite Hrun in Hepoch.
  injection Hepoch as <- <-.
  destruct (drain_train_model extra (record_call ModelTrain w) self_bound)
    as (losses' & w1' & Hd1' & _ & _ & Hs1 & _).
  rewrite Hd1 in Hd1'. injection Hd1' as <- <-.
  destruct (drain_dev_model extra (record_call ModelEval w1) self_bound)
    as (yields' & w2' & Hd2' & Hlen & _).
  rewrite Hd2 in Hd2'. injection Hd2' as <- <-.
  cbn [self_ record_call] in Hs1, Hlen. rewrite Hs1 in Hlen.
  assert (Hlosses : Forall (fun x => nonneg x = true) losses).
  { apply (drain_forall (train_model extra) _
             (fun b w x w' => train_yield_nonneg b w x w' loss_in_range)
             _ _ _ Hd1). }
  assert (Hyields : Forall (fun y => nonneg (fst y) = true
                                     /\ in_unit (snd y) = true) yields).
  { apply (drain_forall (dev_model extra) _
             (fun b w y w' =>
                dev_yield_in_range b w y w' loss_in_range accuracy_in_range)
             _ _ _ Hd2). }
  eexists _, _, _. cbn [train_loss_list dev_loss_list dev_acc_list].
  split; [reflexivity|]. split; [reflexivity|]. split; [reflexivity|].
  split; [|split; [|split]].
  - apply scaled_loss_nonneg; [by apply summed_nonneg|done|done].
  - apply scaled_loss_nonneg; [|done|done].
    apply summed_nonneg, Forall_map.
    eapply Forall_impl; [exact Hyields|]. by intros y [Hy _].
  - apply mean_in_range.
    + intros Hnil. apply (f_equal (@length float)) in Hnil.
      rewrite length_map, Hlen in Hnil.
      by apply (positive_finite_length _ Hnd).
    + apply Forall_map.
      eapply Forall_impl; [exact Hyields|]. by intros y [_ Hy].
  - simpl. exact Hs2.
Qed.

(** The loop keeps the ranges of the three metric lists. *)
Lemma epoch_loop_ranges (start_epoch : Z) (epochs : list Z) :
  forall hist w hist' w',
    well_sized (self_ w) = true ->
    for_each epochs (epoch_body extra start_epoch) hist w
    = (Return hist', w') ->
    Forall (fun x => nonneg x = true) (train_loss_list hist) ->
    Forall (fun x => nonneg x = true) (dev_loss_list hist) ->
    Forall (fun x => in_unit x = true) (dev_acc_list hist) ->
    Forall (fun x => nonneg x = true) (train_loss_list hist')
    /\ Forall (fun x => nonneg x = true) (dev_loss_list hist')
    /\ Forall (fun x => in_unit x = true) (dev_acc_list hist').
Proof.
  induction epochs as [|epoch epochs IH];
    intros hist w hist' w' Hsized Hloop Ht Hd Ha.
  - by injection Hloop as <- _.
  - cbn [for_each] in Hloop. unfold bind at 1 in Hloop.
    destruct (epoch_body extra start_epoch epoch hist w)
      as [[hist1|e] w1] eqn:Hepoch; [|done].
    destruct (epoch_body_ranges _ _ _ _ _ _ Hsized Hepoch)
      as (t & d & a & Et & Ed & Ea & Htn & Hdn & Han & Hs).
    apply (IH hist1 w1 hist' w'); [by rewrite Hs|done|..].
    + rewrite Et. apply Forall_app. by repeat constructor.
    + rewrite Ed. apply Forall_app. by repeat constructor.
    + rewrite Ea. apply Forall_app. by repeat constructor.
Qed.


End EpochRanges.

End Metrics.

(** ** A run whose losses overflow *)

Section SteepRun.

#[local] Existing Instance Scenario.store.
#[local] Existing Instance Scenario.steep.



End SteepRun.
